(** * go-crypto-container: the password-protected container

    A shallow embedding of [container/container.go] and of the parts of the Go
    libraries it calls ([encoding/hex], [crypto/sha256], [crypto/hmac],
    [golang.org/x/crypto/pbkdf2], [crypto/aes], [crypto/cipher]'s CTR mode),
    followed by the properties of [CreateContainer] and [DecryptContainer].

    How the code is read:
    - a Go function is a computation of the monad [Go]: it reads the host
      ([Env]: random bytes, clock, benchmark time, pseudo-random draws),
      threads a [World] (the number of calls of [rand.Read] and the log of
      the cryptographic calls made so far), and yields a value or a panic;
    - a function of results [(T, error)] yields [error + T]; the two public
      functions yield the pair [(string, error)] as written in the source;
    - [int] and [int64] are 64 bits wide;
    - the cryptographic functions are computed as the libraries compute them,
      so that the package runs on concrete inputs; [encoding/json] is an
      interface with one law, and a small codec implements it. *)

From Stdlib Require Import ZArith NArith List String Ascii Bool Lia Uint63.
From Stdlib Require Import DecimalString DecimalZ DecimalPos.
Import ListNotations.

Local Open Scope Z_scope.

(** ** Bytes and Go strings

    A Go [byte] is an 8-bit [ascii]; a [[]byte] is a [list byte]; a Go [string]
    is an immutable sequence of bytes, a Rocq [string]. *)

Abbreviation byte := ascii (only parsing).

Definition byte_of_Z (z : Z) : byte := ascii_of_N (Z.to_N (Z.land z 255)).

(** [[]byte(s)] and [string(b)]. *)
Definition bytes_of_string (s : string) : list byte := list_ascii_of_string s.
Definition string_of_bytes (b : list byte) : string := string_of_list_ascii b.

(** [a ^ b] on bytes. *)
Definition byte_xor (a b : byte) : byte :=
  match a, b with
  | Ascii a0 a1 a2 a3 a4 a5 a6 a7, Ascii b0 b1 b2 b3 b4 b5 b6 b7 =>
      Ascii (xorb a0 b0) (xorb a1 b1) (xorb a2 b2) (xorb a3 b3)
            (xorb a4 b4) (xorb a5 b5) (xorb a6 b6) (xorb a7 b7)
  end.

(** [make([]byte, n)]: [n] zero bytes. *)
Definition make_bytes (n : nat) : list byte := repeat zero n.

(** ** Machine words

    The library code below computes on [uint32] and [byte] values; they are
    primitive 63-bit integers here, kept in range by masking. *)

Module Word.

Local Open Scope uint63_scope.

Definition word := PrimInt63.int.

Definition xor (a b : word) : word := PrimInt63.lxor a b.
Definition and (a b : word) : word := PrimInt63.land a b.
Definition or (a b : word) : word := PrimInt63.lor a b.
Definition shl (n x : word) : word := PrimInt63.lsl x n.
Definition shr (n x : word) : word := PrimInt63.lsr x n.

Definition bit (b : bool) (k : word) : word := if b then k else 0.

Definition word_of_byte (b : byte) : word :=
  let (b0, b1, b2, b3, b4, b5, b6, b7) := b in
  bit b0 1 + bit b1 2 + bit b2 4 + bit b3 8
  + bit b4 16 + bit b5 32 + bit b6 64 + bit b7 128.

Definition test (w k : word) : bool :=
  negb (PrimInt63.eqb (and w k) 0).

(** [byte(w)]: the low eight bits. *)
Definition byte_of_word (w : word) : byte :=
  Ascii (test w 1) (test w 2) (test w 4) (test w 8)
        (test w 16) (test w 32) (test w 64) (test w 128).

(** The four bytes of a [uint32], most significant first. *)
Definition be32 (w : word) : list byte :=
  [ byte_of_word (shr 24 w); byte_of_word (shr 16 w);
    byte_of_word (shr 8 w); byte_of_word w ].

(** The [uint32] of four bytes, most significant first. *)
Definition of_be32 (a b c d : byte) : word :=
  or (shl 24 (word_of_byte a))
     (or (shl 16 (word_of_byte b))
         (or (shl 8 (word_of_byte c)) (word_of_byte d))).

End Word.

(** ** crypto/sha256

    The 32-bit words of the hash are machine integers ([uint32] in Go); here
    they are primitive 63-bit integers kept below [2^32] by masking. *)

Module SHA256.

Import Word.
Local Open Scope uint63_scope.

Definition mask32 : word := 4294967295.
Definition w32 (x : word) : word := and x mask32.
Definition add32 (a b : word) : word := w32 (PrimInt63.add a b).
Definition rotr (n x : word) : word :=
  w32 (or (shr n x) (shl (PrimInt63.sub 32 n) x)).
Definition not32 (x : word) : word := xor x mask32.

Definition Ch (x y z : word) : word := xor (and x y) (and (not32 x) z).
Definition Maj (x y z : word) : word :=
  xor (xor (and x y) (and x z)) (and y z).
Definition Sigma0 (x : word) : word :=
  xor (xor (rotr 2 x) (rotr 13 x)) (rotr 22 x).
Definition Sigma1 (x : word) : word :=
  xor (xor (rotr 6 x) (rotr 11 x)) (rotr 25 x).
Definition sigma0 (x : word) : word :=
  xor (xor (rotr 7 x) (rotr 18 x)) (shr 3 x).
Definition sigma1 (x : word) : word :=
  xor (xor (rotr 17 x) (rotr 19 x)) (shr 10 x).

(** The first primes: [2, 3, 5, ...]. *)
Definition is_prime (n : nat) : bool :=
  forallb (fun d => negb (Nat.eqb (Nat.modulo n d) 0)) (seq 2 (n - 2)).

Definition primes (count : nat) : list Z :=
  map Z.of_nat (firstn count (filter is_prime (seq 2 320))).

(** The integer cube root, one bit at a time from bit [n - 1]. *)
Fixpoint cbrt_bits (n : nat) (x r : Z) : Z :=
  match n with
  | O => r
  | S n' =>
      let r' := (r + Z.shiftl 1 (Z.of_nat n'))%Z in
      cbrt_bits n' x (if (r' * r' * r' <=? x)%Z then r' else r)
  end.

(** The first 32 bits of the fractional part of a root of [p]. *)
Definition frac32 (root : Z -> Z) (p : Z) : word :=
  Uint63.of_Z (Z.land (root p) 4294967295).

(** The round constants: from the cube roots of the first 64 primes. *)
Definition K : list word :=
  Eval vm_compute in
    map (frac32 (fun p => cbrt_bits 40 (Z.shiftl p 96) 0)) (primes 64).

(** The eight chaining words. *)
Record state := State
  { h0 : word; h1 : word; h2 : word; h3 : word;
    h4 : word; h5 : word; h6 : word; h7 : word }.

(** The initial value: from the square roots of the first 8 primes. *)
Definition init : state :=
  Eval vm_compute in
    match map (frac32 (fun p => Z.sqrt (Z.shiftl p 64))) (primes 8) with
    | [a; b; c; d; e; f; g; h] => State a b c d e f g h
    | _ => State 0 0 0 0 0 0 0 0
    end.

(** Big-endian words of a block of bytes. *)
Fixpoint words_of_bytes (n : nat) (bs : list byte) : list word :=
  match n with
  | O => []
  | S n' =>
      match bs with
      | a :: b :: c :: d :: rest =>
          of_be32 a b c d :: words_of_bytes n' rest
      | _ => []
      end
  end.

(** The message schedule: [w] holds the words so far, newest first. *)
Fixpoint schedule (n : nat) (w : list word) : list word :=
  match n with
  | O => w
  | S n' =>
      let z := 0%uint63 in
      let wt := add32 (add32 (sigma1 (nth 1 w z)) (nth 6 w z))
                      (add32 (sigma0 (nth 14 w z)) (nth 15 w z)) in
      schedule n' (wt :: w)
  end.

Definition round (s : state) (kw : word * word) : state :=
  let (k, w) := kw in
  let t1 := add32 (add32 (add32 (h7 s) (Sigma1 (h4 s)))
                         (add32 (Ch (h4 s) (h5 s) (h6 s)) k)) w in
  let t2 := add32 (Sigma0 (h0 s)) (Maj (h0 s) (h1 s) (h2 s)) in
  State (add32 t1 t2) (h0 s) (h1 s) (h2 s)
        (add32 (h3 s) t1) (h4 s) (h5 s) (h6 s).

Definition compress (s : state) (block : list byte) : state :=
  let w := rev (schedule 48 (rev (words_of_bytes 16 block))) in
  let r := fold_left round (combine K w) s in
  State (add32 (h0 s) (h0 r)) (add32 (h1 s) (h1 r))
        (add32 (h2 s) (h2 r)) (add32 (h3 s) (h3 r))
        (add32 (h4 s) (h4 r)) (add32 (h5 s) (h5 r))
        (add32 (h6 s) (h6 r)) (add32 (h7 s) (h7 r)).

(** Big-endian bytes of the low [8 * n] bits of [x]. *)
Fixpoint be_bytes (n : nat) (x : Z) : list byte :=
  match n with
  | O => []
  | S n' => byte_of_Z (Z.shiftr x (8 * Z.of_nat n')%Z) :: be_bytes n' x
  end.

(** A hash in progress whose buffer is empty: the chaining words and the
    number of bytes written so far, a multiple of 64. *)
Record digest := { h : state; written : nat }.

Definition New : digest := {| h := init; written := 0 |}.

(** Padding: a 0x80 byte, zeros up to 56 mod 64, and the bit length of the
    whole message on 8 bytes. *)
Definition pad (before : nat) (msg : list byte) : list byte :=
  let len := Z.of_nat (before + List.length msg) in
  let zeros := Z.to_nat ((55 - len) mod 64)%Z in
  msg ++ byte_of_Z 128 :: repeat zero zeros ++ be_bytes 8 (8 * len)%Z.

Fixpoint blocks (n : nat) (bs : list byte) (s : state) : state :=
  match n with
  | O => s
  | S n' => blocks n' (skipn 64 bs) (compress s (firstn 64 bs))
  end.

Definition digest_bytes (s : state) : list byte :=
  be32 (h0 s) ++ be32 (h1 s) ++ be32 (h2 s)
  ++ be32 (h3 s) ++ be32 (h4 s) ++ be32 (h5 s)
  ++ be32 (h6 s) ++ be32 (h7 s).

(** [d.Write(block)] for one whole block. *)
Definition WriteBlock (d : digest) (block : list byte) : digest :=
  {| h := compress (h d) block; written := written d + 64 |}.

(** [d.Write(msg); d.Sum(nil)]. *)
Definition Finish (d : digest) (msg : list byte) : list byte :=
  let p := pad (written d) msg in
  digest_bytes (blocks (Nat.div (List.length p) 64) p (h d)).

(** [sha256.Sum256(data)], a [[32]byte]. *)
Definition Sum256 (data : list byte) : list byte := Finish New data.

Definition Size : nat := 32.
Definition BlockSize : nat := 64.

End SHA256.

(** Pointwise [^] of a byte slice with a key stream; the result is as long as
    [src] (a missing key byte counts as zero). *)
Fixpoint xor_bytes (src ks : list byte) : list byte :=
  match src with
  | [] => []
  | b :: src' => byte_xor b (hd zero ks) :: xor_bytes src' (tl ks)
  end.

(** ** crypto/hmac with SHA-256, and golang.org/x/crypto/pbkdf2 *)

Module Hmac.

(** [hmac.New(sha256.New, key)]: a key longer than the block size is hashed
    first, then it is padded with zeros to the block size. *)
Definition block_key (key : list byte) : list byte :=
  let k := if Nat.ltb SHA256.BlockSize (List.length key)
           then SHA256.Sum256 key else key in
  k ++ repeat zero (SHA256.BlockSize - List.length k).

Definition ipad (key : list byte) : list byte :=
  map (byte_xor "054"%char) (block_key key).
Definition opad (key : list byte) : list byte :=
  map (byte_xor "092"%char) (block_key key).

(** The keyed hash: the inner and the outer hash, each after its pad. *)
Record hmac := { inner : SHA256.digest; outer : SHA256.digest }.

Definition New (key : list byte) : hmac :=
  {| inner := SHA256.WriteBlock SHA256.New (ipad key);
     outer := SHA256.WriteBlock SHA256.New (opad key) |}.

(** [prf.Reset(); prf.Write(msg); prf.Sum(nil)]. *)
Definition Sum (prf : hmac) (msg : list byte) : list byte :=
  SHA256.Finish (outer prf) (SHA256.Finish (inner prf) msg).

End Hmac.

Module PBKDF2.

Definition hashLen : nat := SHA256.Size.

(** One turn of the inner loop [for n := 2; n <= iter; n++]: [U = prf(U)],
    [T ^= U]. The pair is [(T, U)]. *)
Definition step (prf : Hmac.hmac) (tu : list byte * list byte)
  : list byte * list byte :=
  let u := Hmac.Sum prf (snd tu) in
  (xor_bytes (fst tu) u, u).

(** The block [T] of index [block]: [U_1 = prf(salt || INT(block))], then
    [iter - 1] turns of the loop (none when [iter <= 1]). *)
Definition F (prf : Hmac.hmac) (salt : list byte) (iter : Z) (block : nat)
  : list byte :=
  let u1 := Hmac.Sum prf (salt ++ Word.be32 (Uint63.of_Z (Z.of_nat block))) in
  fst (Z.iter (iter - 1) (step prf) (u1, u1)).

(** [pbkdf2.Key(password, salt, iter, keyLen, sha256.New)]. *)
Definition Key (password salt : list byte) (iter : Z) (keyLen : nat)
  : list byte :=
  let prf := Hmac.New password in
  let numBlocks := Nat.div (keyLen + hashLen - 1) hashLen in
  firstn keyLen (flat_map (F prf salt iter) (seq 1 numBlocks)).

End PBKDF2.

(** ** crypto/aes *)

Module AES.

Import Word.
Local Open Scope uint63_scope.

Definition BlockSize : nat := 16.

(** Multiplication by [x] in GF(2^8) modulo [x^8 + x^4 + x^3 + x + 1]. *)
Definition xtime (a : word) : word :=
  and (xor (shl 1 a) (if test a 128 then 27 else 0)) 255.

Fixpoint gmul_aux (n : nat) (a b acc : word) : word :=
  match n with
  | O => acc
  | S n' =>
      gmul_aux n' (xtime a) (shr 1 b) (if test b 1 then xor acc a else acc)
  end.
Definition gmul (a b : word) : word := gmul_aux 8 a b 0.

(** The inverse in GF(2^8) as the 254th power, with [0] sent to [0]. *)
Definition ginv (a : word) : word :=
  let a2 := gmul a a in
  let a4 := gmul a2 a2 in
  let a8 := gmul a4 a4 in
  let a16 := gmul a8 a8 in
  let a32 := gmul a16 a16 in
  let a64 := gmul a32 a32 in
  let a128 := gmul a64 a64 in
  gmul a128 (gmul a64 (gmul a32 (gmul a16 (gmul a8 (gmul a4 a2))))).

Definition rotl8 (n x : word) : word :=
  and (or (shl n x) (shr (PrimInt63.sub 8 n) x)) 255.

Definition sbox_entry (a : word) : word :=
  let b := ginv a in
  xor (xor (xor (xor (xor b (rotl8 1 b)) (rotl8 2 b)) (rotl8 3 b))
           (rotl8 4 b)) 99.

(** The substitution table of FIPS-197 ([sbox0] of crypto/aes). *)
Definition sbox0 : list word :=
  Eval vm_compute in
    map (fun i => sbox_entry (Uint63.of_Z (Z.of_nat i))) (seq 0 256).

Definition sub (a : word) : word :=
  nth (Z.to_nat (Uint63.to_Z (and a 255))) sbox0 0.

Definition subw (w : word) : word :=
  or (shl 24 (sub (shr 24 w)))
     (or (shl 16 (sub (shr 16 w))) (or (shl 8 (sub (shr 8 w))) (sub w))).

Definition rotw (w : word) : word :=
  and (or (shl 8 w) (shr 24 w)) 4294967295.

Fixpoint words_of_key (bs : list byte) : list word :=
  match bs with
  | a :: b :: c :: d :: rest => of_be32 a b c d :: words_of_key rest
  | _ => []
  end.

(** Key expansion: [w] holds the words so far, newest first; [i] is the
    index of the next word and [rc] the current round constant. *)
Fixpoint expand (n : nat) (nk i : nat) (rc : word) (w : list word)
  : list word :=
  match n with
  | O => w
  | S n' =>
      let prev := nth 0 w 0 in
      let t := if Nat.eqb (Nat.modulo i nk) 0
               then xor (subw (rotw prev)) (shl 24 rc)
               else if andb (Nat.ltb 6 nk) (Nat.eqb (Nat.modulo i nk) 4)
                    then subw prev
                    else prev in
      let rc' := if Nat.eqb (Nat.modulo i nk) 0 then xtime rc else rc in
      expand n' nk (S i) rc' (xor (nth (nk - 1) w 0) t :: w)
  end.

(** The expanded key, as bytes: [16 * (rounds + 1)] of them. *)
Definition expandKey (key : list byte) : list word :=
  let nk := Nat.div (List.length key) 4 in
  let total := (4 * (nk + 7))%nat in
  flat_map (fun w => map word_of_byte (be32 w))
           (rev (expand (total - nk) nk nk 1 (rev (words_of_key key)))).

Definition getb (s : list word) (i : nat) : word := nth i s 0.

Definition addRoundKey (rk s : list word) (r : nat) : list word :=
  map (fun i => xor (getb s i) (getb rk (16 * r + i))) (seq 0 16).

Definition subBytes (s : list word) : list word := map sub s.

Definition shiftRows (s : list word) : list word :=
  map (fun i => getb s (Nat.modulo (i + 4 * Nat.modulo i 4) 16)) (seq 0 16).

Definition mixColumns (s : list word) : list word :=
  map (fun i =>
         let c := (4 * Nat.div i 4)%nat in
         let a k := getb s (c + Nat.modulo (i + k) 4) in
         xor (xor (gmul 2 (a 0%nat)) (gmul 3 (a 1%nat)))
             (xor (a 2%nat) (a 3%nat)))
      (seq 0 16).

Fixpoint rounds (n : nat) (rk s : list word) (r : nat) : list word :=
  match n with
  | O => s
  | S n' =>
      rounds n' rk (addRoundKey rk (mixColumns (shiftRows (subBytes s))) r)
             (S r)
  end.

(** A [cipher.Block]: the key it was made from. *)
Record Block := { block_key : list byte }.

(** [block.Encrypt(dst, src)] on one 16-byte block. *)
Definition Encrypt (c : Block) (src : list byte) : list byte :=
  let key := block_key c in
  let nr := (Nat.div (List.length key) 4 + 6)%nat in
  let rk := expandKey key in
  let s0 := addRoundKey rk (map word_of_byte src) 0 in
  let s1 := rounds (nr - 1) rk s0 1 in
  map byte_of_word (addRoundKey rk (shiftRows (subBytes s1)) nr).

End AES.

(** ** crypto/cipher: counter mode *)

Module CTR.

(** The counter is a big-endian integer on the whole block: the last byte
    is incremented, and the carry moves towards the first. [incr_rev] works
    on the reversed block. *)
Definition succ_byte (b : byte) : byte :=
  Word.byte_of_word (PrimInt63.add (Word.word_of_byte b) 1%uint63).

Fixpoint incr_rev (c : list byte) : list byte :=
  match c with
  | [] => []
  | b :: rest =>
      let b' := succ_byte b in
      if Ascii.eqb b' zero then b' :: incr_rev rest else b' :: rest
  end.

Definition incr (c : list byte) : list byte := rev (incr_rev (rev c)).

(** The stream made by [cipher.NewCTR(block, iv)]. *)
Record Stream := { ctr_b : AES.Block; ctr_iv : list byte }.

(** [n] blocks of key stream from the counter value [c]. *)
Fixpoint keystream (b : AES.Block) (c : list byte) (n : nat) : list byte :=
  match n with
  | O => []
  | S n' => AES.Encrypt b c ++ keystream b (incr c) n'
  end.

(** The bytes [XORKeyStream] stores for the input [src], on a fresh
    stream. *)
Definition apply (s : Stream) (src : list byte) : list byte :=
  xor_bytes src
    (keystream (ctr_b s) (ctr_iv s)
               (S (Nat.div (List.length src) AES.BlockSize))).

End CTR.

(** ** encoding/hex *)

Module Hex.

Definition hextable : list byte :=
  list_ascii_of_string "0123456789abcdef".

Definition EncodeByte (b : byte) : list byte :=
  let v := N_of_ascii b in
  [ nth (N.to_nat (N.div v 16)) hextable zero;
    nth (N.to_nat (N.modulo v 16)) hextable zero ].

(** [hex.EncodeToString(src)]. *)
Definition EncodeToString (src : list byte) : string :=
  string_of_list_ascii (flat_map EncodeByte src).

(** The value of a hexadecimal character, of either case
    ([reverseHexTable]). *)
Definition fromHexChar (c : byte) : option N :=
  let n := N_of_ascii c in
  if andb (N.leb 48 n) (N.leb n 57) then Some (n - 48)%N
  else if andb (N.leb 97 n) (N.leb n 102) then Some (n - 87)%N
  else if andb (N.leb 65 n) (N.leb n 70) then Some (n - 55)%N
  else None.

Inductive error :=
| InvalidByteError (b : byte)
| ErrLength.

(** [hex.Decode]: pairs of characters are decoded from the left; the first
    bad character is reported, and an odd length after that. *)
Fixpoint Decode (src : list byte) : error + list byte :=
  match src with
  | [] => inr []
  | [p] =>
      match fromHexChar p with
      | None => inl (InvalidByteError p)
      | Some _ => inl ErrLength
      end
  | p :: q :: rest =>
      match fromHexChar p with
      | None => inl (InvalidByteError p)
      | Some a =>
          match fromHexChar q with
          | None => inl (InvalidByteError q)
          | Some b =>
              match Decode rest with
              | inl e => inl e
              | inr d => inr (ascii_of_N (a * 16 + b) :: d)
              end
          end
      end
  end.

(** [hex.DecodeString(s)]. *)
Definition DecodeString (s : string) : error + list byte :=
  Decode (list_ascii_of_string s).

End Hex.

(** ** Errors, effects and the Go idioms of the package *)

(** The error values the package can return: those of the libraries it calls
    and the one it makes itself with [errors.New]. *)
Inductive error :=
| rand_error (msg : string)
| json_error (msg : string)
| hex_error (e : Hex.error)
| aes_KeySizeError (n : nat)
| errors_New (msg : string).

(** The cryptographic work a call performs, in the order it is performed. *)
Inductive op :=
| op_Sum256
| op_pbkdf2_Key (iter : Z)
| op_NewCipher
| op_NewCTR
| op_XORKeyStream (n : nat).

(** What the package reads from its host: the system's random bytes (the
    [k]-th call of [rand.Read] fails or yields a source of bytes), the clock,
    the time the benchmark took and the generator behind [math/rand]. *)
Record Env := {
  env_rand : nat -> error + (nat -> byte);
  env_now : Z;
  env_elapsed : Z;
  env_draw : Z -> Z -> Z
}.

Record World := { rand_calls : nat; log : list op }.

Definition start : World := {| rand_calls := 0; log := [] |}.

Inductive outcome (A : Type) :=
| Val (a : A)
| Panic (msg : string).
Arguments Val {A} a.
Arguments Panic {A} msg.

(** A Go computation: it reads the host, changes the world, and yields a
    value or panics. *)
Definition Go (A : Type) : Type := Env -> World -> outcome A * World.

Definition ret {A} (a : A) : Go A := fun _ w => (Val a, w).

Definition panic {A} (msg : string) : Go A := fun _ w => (Panic msg, w).

Definition bind {A B} (m : Go A) (k : A -> Go B) : Go B :=
  fun e w =>
    match m e w with
    | (Val a, w') => k a e w'
    | (Panic msg, w') => (Panic msg, w')
    end.

Definition record (o : op) : Go unit :=
  fun _ w => (Val tt, {| rand_calls := rand_calls w; log := log w ++ [o] |}).

Declare Scope go_scope.
Delimit Scope go_scope with go.
Notation "x <- m ;; k" := (bind m (fun x => k))
  (at level 61, m at next level, right associativity) : go_scope.
Notation "m ;;; k" := (bind m (fun _ => k))
  (at level 61, right associativity) : go_scope.
(** [x, err := m; if err != nil { return "", err }]. *)
Notation "x <-? m ;; k" :=
  (bind m (fun r => match r with
                    | inl err => ret (EmptyString, Some err)
                    | inr x => k
                    end))
  (at level 61, m at next level, right associativity) : go_scope.

Local Open Scope string_scope.
Local Open Scope list_scope.
Local Open Scope Z_scope.
Local Open Scope go_scope.

(** The 64-bit [int] and [int64]: wrap-around of an exact result. *)
Definition wrap64 (z : Z) : Z :=
  (z + 9223372036854775808) mod 18446744073709551616 - 9223372036854775808.

(** [len(s)] for a string or a slice, as an [int]. *)
Definition len {A} (l : list A) : Z := Z.of_nat (List.length l).

(** [make([]byte, n)]: a negative length panics. *)
Definition make (n : Z) : Go (list byte) :=
  if (n <? 0)%Z then panic "makeslice: len out of range"
  else ret (make_bytes (Z.to_nat n)).

(** [s[lo:]]: a bound beyond the length panics. *)
Definition slice_from (s : list byte) (lo : nat) : Go (list byte) :=
  if Nat.ltb (List.length s) lo then panic "slice bounds out of range"
  else ret (skipn lo s).

(** [rand.Read(buf)] of crypto/rand: the buffer is filled, or the call
    fails. *)
Definition rand_Read (buf : list byte) : Go (error + list byte) :=
  fun e w =>
    let w' := {| rand_calls := S (rand_calls w); log := log w |} in
    match env_rand e (rand_calls w) with
    | inl err => (Val (inl err), w')
    | inr src => (Val (inr (map src (seq 0 (List.length buf)))), w')
    end.

Definition sha256_Sum256 (data : list byte) : Go (list byte) :=
  record op_Sum256 ;;; ret (SHA256.Sum256 data).

Definition pbkdf2_Key (password salt : list byte) (iter : Z) (keyLen : nat)
  : Go (list byte) :=
  record (op_pbkdf2_Key iter) ;;; ret (PBKDF2.Key password salt iter keyLen).

(** [aes.NewCipher(key)]: the key is 16, 24 or 32 bytes long. *)
Definition aes_NewCipher (key : list byte) : Go (error + AES.Block) :=
  record op_NewCipher ;;;
  let k := List.length key in
  if orb (Nat.eqb k 16) (orb (Nat.eqb k 24) (Nat.eqb k 32))
  then ret (inr {| AES.block_key := key |})
  else ret (inl (aes_KeySizeError k)).

(** [cipher.NewCTR(block, iv)]: panics unless [iv] is one block long. *)
Definition cipher_NewCTR (block : AES.Block) (iv : list byte)
  : Go CTR.Stream :=
  record op_NewCTR ;;;
  if Nat.eqb (List.length iv) AES.BlockSize
  then ret {| CTR.ctr_b := block; CTR.ctr_iv := iv |}
  else panic "cipher.NewCTR: IV length must equal block size".

(** [stream.XORKeyStream(dst, src)] on a fresh stream: panics when [dst] is
    shorter than [src]; otherwise the first [len(src)] bytes of [dst] are
    overwritten. The result is [dst] after the call. *)
Definition XORKeyStream (s : CTR.Stream) (dst src : list byte)
  : Go (list byte) :=
  record (op_XORKeyStream (List.length src)) ;;;
  if Nat.ltb (List.length dst) (List.length src)
  then panic "crypto/cipher: output smaller than input"
  else ret (CTR.apply s src ++ skipn (List.length src) dst).

(** [random.Intn(n)] of math/rand, seeded with [seed]: panics unless
    [n > 0]; otherwise a value of [[0, n)]. *)
Definition rand_Intn (seed n : Z) : Go Z :=
  fun e w =>
    if (n <=? 0)%Z then (Panic "invalid argument to Intn", w)
    else (Val (env_draw e seed n mod n)%Z, w).

Definition hex_DecodeString (s : string) : Go (error + list byte) :=
  match Hex.DecodeString s with
  | inl e => ret (inl (hex_error e))
  | inr b => ret (inr b)
  end.

(** ** The container record *)

Definition saltLen : nat := 12.
Definition ivLen : nat := 16.

Record Meta := { Version : string }.
Record Derive := { Salt : string; Iters : Z }.
Record Encryption := { IV : string }.
Record Data := { EncryptedData : string; HMAC : string }.

Record Container := {
  ContainerMeta : Meta;
  DeriveInfo : Derive;
  EncryptionInfo : Encryption;
  ContainedData : Data
}.

(** [Container{}]: every field at its zero value. *)
Definition Container_zero : Container :=
  {| ContainerMeta := {| Version := "" |};
     DeriveInfo := {| Salt := ""; Iters := 0 |};
     EncryptionInfo := {| IV := "" |};
     ContainedData := {| EncryptedData := ""; HMAC := "" |} |}.

Definition SetContainerMeta (c : Container) (version : string) : Container :=
  {| ContainerMeta := {| Version := version |};
     DeriveInfo := DeriveInfo c;
     EncryptionInfo := EncryptionInfo c;
     ContainedData := ContainedData c |}.

Definition SetDeriveInfo (c : Container) (salt : string) (iters : Z)
  : Container :=
  {| ContainerMeta := ContainerMeta c;
     DeriveInfo := {| Salt := salt; Iters := iters |};
     EncryptionInfo := EncryptionInfo c;
     ContainedData := ContainedData c |}.

Definition SetEncryptionInfo (c : Container) (iv : string) : Container :=
  {| ContainerMeta := ContainerMeta c;
     DeriveInfo := DeriveInfo c;
     EncryptionInfo := {| IV := iv |};
     ContainedData := ContainedData c |}.

Definition SetContainedData (c : Container) (encryptedData hmac : string)
  : Container :=
  {| ContainerMeta := ContainerMeta c;
     DeriveInfo := DeriveInfo c;
     EncryptionInfo := EncryptionInfo c;
     ContainedData := {| EncryptedData := encryptedData; HMAC := hmac |} |}.

(** ** encoding/json, as the package uses it

    The package serialises one type, [Container], with [json.Marshal] and
    reads it back with [json.Unmarshal]. The codec is an interface here; its
    one law is that a record whose strings need no escaping and whose
    iteration count is an [int] is read back as it was written. *)

Definition plain_char (c : ascii) : bool :=
  let n := N_of_ascii c in
  (N.leb 32 n && N.ltb n 127
   && negb (N.eqb n 34) && negb (N.eqb n 92)
   && negb (N.eqb n 60) && negb (N.eqb n 62) && negb (N.eqb n 38))%bool.

Definition plain_string (s : string) : bool :=
  forallb plain_char (list_ascii_of_string s).

Definition is_int (z : Z) : bool :=
  ((-9223372036854775808 <=? z) && (z <=? 9223372036854775807))%bool.

Definition plain (c : Container) : bool :=
  (plain_string (Version (ContainerMeta c))
   && plain_string (Salt (DeriveInfo c))
   && is_int (Iters (DeriveInfo c))
   && plain_string (IV (EncryptionInfo c))
   && plain_string (EncryptedData (ContainedData c))
   && plain_string (HMAC (ContainedData c)))%bool.

Class JSON := {
  json_Marshal : Container -> error + string;
  json_Unmarshal : string -> error + Container;
  json_Unmarshal_Marshal :
    forall c, plain c = true ->
    exists b, json_Marshal c = inr b /\ json_Unmarshal b = inr c
}.

(** ** The package *)

Section Package.

Context {J : JSON}.

Definition generateRandomBytes (length : nat) : Go (error + list byte) :=
  let buf := make_bytes length in
  r <- rand_Read buf ;;
  match r with
  | inl err => ret (inl err)
  | inr buf => ret (inr buf)
  end.

(** [workload]: the loop only takes time (its sum is dropped); the result
    is the time it took, in nanoseconds, an [int64]. *)
Definition workload (iterations : Z) : Go Z :=
  fun e w => (Val (wrap64 (env_elapsed e)), w).

Definition time_Now_UnixNano : Go Z :=
  fun e w => (Val (wrap64 (env_now e)), w).

Definition generateRandomNumber : Go Z :=
  let iterations := 130000 in
  elapsed <- workload iterations ;;
  now <- time_Now_UnixNano ;;
  let source := wrap64 (now + elapsed) in
  randomNumber <- rand_Intn source (wrap64 (elapsed + 1)) ;;
  if randomNumber <? 4096 then ret 4096 else ret randomNumber.

Definition CreateContainer (plaintext password : string)
  : Go (string * option error) :=
  hmac <- sha256_Sum256 (bytes_of_string plaintext) ;;
  salt <-? generateRandomBytes saltLen ;;
  iterCount <- generateRandomNumber ;;
  iv <-? generateRandomBytes ivLen ;;
  dk <- pbkdf2_Key (bytes_of_string password) salt iterCount 32 ;;
  block <-? aes_NewCipher dk ;;
  ciphertext <- make (Z.of_nat AES.BlockSize
                      + len (bytes_of_string plaintext)) ;;
  stream <- cipher_NewCTR block iv ;;
  dst <- slice_from ciphertext AES.BlockSize ;;
  dst <- XORKeyStream stream dst (bytes_of_string plaintext) ;;
  (* [dst] is [ciphertext[aes.BlockSize:]]: the write lands in
     [ciphertext] *)
  let ciphertext := firstn AES.BlockSize ciphertext ++ dst in
  let container := Container_zero in
  let container := SetContainerMeta container "v1.0" in
  let container :=
    SetDeriveInfo container (Hex.EncodeToString salt) iterCount in
  let container := SetEncryptionInfo container (Hex.EncodeToString iv) in
  let container :=
    SetContainedData container (Hex.EncodeToString ciphertext)
                     (Hex.EncodeToString hmac) in
  b <-? ret (json_Marshal container) ;;
  ret (b, None).

Definition DecryptContainer (containerJSON password : string)
  : Go (string * option error) :=
  container <-? ret (json_Unmarshal containerJSON) ;;
  salt <-? hex_DecodeString (Salt (DeriveInfo container)) ;;
  encrypted <-? hex_DecodeString (EncryptedData (ContainedData container)) ;;
  iv <-? hex_DecodeString (IV (EncryptionInfo container)) ;;
  dk <- pbkdf2_Key (bytes_of_string password) salt
                   (Iters (DeriveInfo container)) 32 ;;
  block <-? aes_NewCipher dk ;;
  plaintext <- make (len encrypted - Z.of_nat AES.BlockSize) ;;
  stream <- cipher_NewCTR block iv ;;
  src <- slice_from encrypted AES.BlockSize ;;
  plaintext <- XORKeyStream stream plaintext src ;;
  check <- sha256_Sum256 plaintext ;;
  if negb (String.eqb (Hex.EncodeToString check)
                      (HMAC (ContainedData container)))
  then ret ("", Some (errors_New "HMAC mismatch"))
  else ret (string_of_bytes plaintext, None).

Definition decodeHex (hexStr : string) : Go (error + list byte) :=
  r <- hex_DecodeString hexStr ;;
  match r with
  | inl err => ret (inl err)
  | inr bytes => ret (inr bytes)
  end.

End Package.

(** ** A reference codec for the record

    A small JSON codec for [Container], used to run the package on concrete
    inputs. It writes the compact text [json.Marshal] writes for a record
    whose strings need no escaping, and reads objects of that shape: members
    in any order, absent members left at their zero value, blanks between
    tokens. Escapes, and members or values of another shape, are outside what
    it covers and are rejected. *)

Module RefJSON.

Definition dq : ascii := "034"%char.

Definition quote (s : string) : string :=
  (String dq s ++ String dq "")%string.

Definition print_int (z : Z) : string := NilZero.string_of_int (Z.to_int z).

Definition print (c : Container) : string :=
  ("{" ++ quote "ContainerMeta" ++ ":" ++ "{"
     ++ quote "Version" ++ ":" ++ quote (Version (ContainerMeta c)) ++ "}"
   ++ "," ++ quote "DeriveInfo" ++ ":" ++ "{"
     ++ quote "Salt" ++ ":" ++ quote (Salt (DeriveInfo c))
     ++ "," ++ quote "Iters" ++ ":" ++ print_int (Iters (DeriveInfo c)) ++ "}"
   ++ "," ++ quote "EncryptionInfo" ++ ":" ++ "{"
     ++ quote "IV" ++ ":" ++ quote (IV (EncryptionInfo c)) ++ "}"
   ++ "," ++ quote "ContainedData" ++ ":" ++ "{"
     ++ quote "EncryptedData" ++ ":" ++ quote (EncryptedData (ContainedData c))
     ++ "," ++ quote "HMAC" ++ ":" ++ quote (HMAC (ContainedData c)) ++ "}"
   ++ "}")%string.

Definition Marshal (c : Container) : error + string :=
  if plain c then inr (print c)
  else inl (json_error "json: value outside the reference codec").

Inductive token :=
| LBRACE | RBRACE | COLON | COMMA
| STR (s : string)
| INT (z : Z).

(** The lexer reads one character at a time; the text of the string or
    number being read is kept newest first. *)
Inductive mode :=
| Out
| InStr (acc : list ascii)
| InNum (acc : list ascii).

Definition lexer : Type := option (list token * mode).

Definition is_num_char (c : ascii) : bool :=
  let n := N_of_ascii c in
  ((N.leb 48 n && N.leb n 57) || N.eqb n 45)%bool.

Definition is_str_char (c : ascii) : bool :=
  let n := N_of_ascii c in
  (N.leb 32 n && negb (N.eqb n 34) && negb (N.eqb n 92))%bool.

(** The integer a literal denotes: an [int] in its shortest decimal form. *)
Definition read_int (acc : list ascii) : option Z :=
  let s := string_of_list_ascii (rev acc) in
  match NilZero.int_of_string s with
  | Some d =>
      let z := Z.of_int d in
      if (String.eqb (print_int z) s && is_int z)%bool then Some z else None
  | None => None
  end.

Definition lex_out (toks : list token) (c : ascii) : lexer :=
  match c with
  | "{"%char => Some (LBRACE :: toks, Out)
  | "}"%char => Some (RBRACE :: toks, Out)
  | ":"%char => Some (COLON :: toks, Out)
  | ","%char => Some (COMMA :: toks, Out)
  | " "%char | "009"%char | "010"%char | "013"%char => Some (toks, Out)
  | "034"%char => Some (toks, InStr [])
  | _ => if is_num_char c then Some (toks, InNum [c]) else None
  end.

Definition lex_step (l : lexer) (c : ascii) : lexer :=
  match l with
  | None => None
  | Some (toks, Out) => lex_out toks c
  | Some (toks, InStr acc) =>
      if Ascii.eqb c dq
      then Some (STR (string_of_list_ascii (rev acc)) :: toks, Out)
      else if is_str_char c then Some (toks, InStr (c :: acc)) else None
  | Some (toks, InNum acc) =>
      if is_num_char c then Some (toks, InNum (c :: acc))
      else match read_int acc with
           | Some z => lex_out (INT z :: toks) c
           | None => None
           end
  end.

Definition lex_run (cs : list ascii) (l : lexer) : lexer :=
  fold_left lex_step cs l.

Definition lex (s : string) : option (list token) :=
  match lex_run (list_ascii_of_string s) (Some ([], Out)) with
  | Some (toks, Out) => Some (rev toks)
  | _ => None
  end.

(** The four sections of the record. *)
Inductive sect := InMeta | InDerive | InEncryption | InData.

Definition section_of (k : string) : option sect :=
  if String.eqb k "ContainerMeta" then Some InMeta
  else if String.eqb k "DeriveInfo" then Some InDerive
  else if String.eqb k "EncryptionInfo" then Some InEncryption
  else if String.eqb k "ContainedData" then Some InData
  else None.

Definition set_field (c : Container) (s : sect) (f : string) (t : token)
  : option Container :=
  match s, t with
  | InMeta, STR v =>
      if String.eqb f "Version" then Some (SetContainerMeta c v) else None
  | InDerive, STR v =>
      if String.eqb f "Salt"
      then Some (SetDeriveInfo c v (Iters (DeriveInfo c))) else None
  | InDerive, INT z =>
      if String.eqb f "Iters"
      then Some (SetDeriveInfo c (Salt (DeriveInfo c)) z) else None
  | InEncryption, STR v =>
      if String.eqb f "IV" then Some (SetEncryptionInfo c v) else None
  | InData, STR v =>
      if String.eqb f "EncryptedData"
      then Some (SetContainedData c v (HMAC (ContainedData c)))
      else if String.eqb f "HMAC"
      then Some (SetContainedData c (EncryptedData (ContainedData c)) v)
      else None
  | _, _ => None
  end.

(** Where the reader stands in the two levels of objects. *)
Inductive place :=
| Start
| TopOpen | TopNext | TopColon (k : string) | TopValue (k : string)
| SecOpen (s : sect) | SecNext (s : sect)
| SecColon (s : sect) (f : string) | SecValue (s : sect) (f : string)
| SecAfter (s : sect)
| TopAfter
| Done.

Definition reader : Type := option (Container * place).

Definition read_step (r : reader) (t : token) : reader :=
  match r with
  | None => None
  | Some (c, p) =>
      match p, t with
      | Start, LBRACE => Some (c, TopOpen)
      | TopOpen, RBRACE => Some (c, Done)
      | TopOpen, STR k | TopNext, STR k => Some (c, TopColon k)
      | TopColon k, COLON => Some (c, TopValue k)
      | TopValue k, LBRACE =>
          match section_of k with
          | Some s => Some (c, SecOpen s)
          | None => None
          end
      | SecOpen s, RBRACE => Some (c, TopAfter)
      | SecOpen s, STR f | SecNext s, STR f => Some (c, SecColon s f)
      | SecColon s f, COLON => Some (c, SecValue s f)
      | SecValue s f, v =>
          match set_field c s f v with
          | Some c' => Some (c', SecAfter s)
          | None => None
          end
      | SecAfter s, COMMA => Some (c, SecNext s)
      | SecAfter s, RBRACE => Some (c, TopAfter)
      | TopAfter, COMMA => Some (c, TopNext)
      | TopAfter, RBRACE => Some (c, Done)
      | _, _ => None
      end
  end.

Definition Unmarshal (data : string) : error + Container :=
  match lex data with
  | None => inl (json_error "json: invalid text")
  | Some toks =>
      match fold_left read_step toks (Some (Container_zero, Start)) with
      | Some (c, Done) => inr c
      | _ => inl (json_error "json: cannot read the record")
      end
  end.

End RefJSON.

(** ** The vocabulary of the statements *)

(** A hexadecimal character, written out. *)
Definition is_hex_digit (c : ascii) : bool :=
  existsb (Ascii.eqb c) (list_ascii_of_string "0123456789abcdefABCDEF").

(** A text [hex.DecodeString] cannot decode: it has a character that is not
    a hexadecimal digit, or its length is odd. *)
Definition bad_hex (s : string) : bool :=
  (negb (forallb is_hex_digit (list_ascii_of_string s))
   || Nat.odd (String.length s))%bool.

(** [flip i mask l]: the byte of [l] at index [i] with the bits of [mask]
    flipped. *)
Fixpoint flip (i : nat) (mask : byte) (l : list byte) {struct l}
  : list byte :=
  match l with
  | [] => []
  | b :: l' =>
      match i with
      | O => byte_xor b mask :: l'
      | S i' => b :: flip i' mask l'
      end
  end.

(** The world after some more cryptographic work. *)
Definition logged (w : World) (ops : list op) : World :=
  {| rand_calls := rand_calls w; log := log w ++ ops |}.

(** The stream [DecryptContainer] and [CreateContainer] set up from a
    password, a salt, an iteration count and an initialisation vector. *)
Definition stream_of (password : string) (salt : list byte) (iter : Z)
  (iv : list byte) : CTR.Stream :=
  {| CTR.ctr_b :=
       {| AES.block_key := PBKDF2.Key (bytes_of_string password) salt iter 32 |};
     CTR.ctr_iv := iv |}.

(** What [DecryptContainer] answers once the bytes are decrypted: the
    comparison of the digests. *)
Definition verdict (plaintext : list byte) (hmac : string)
  : string * option error :=
  if negb (String.eqb (Hex.EncodeToString (SHA256.Sum256 plaintext)) hmac)
  then ("", Some (errors_New "HMAC mismatch"))
  else (string_of_bytes plaintext, None).

(** The record [CreateContainer] assembles from the salt, the vector and the
    iteration count it drew. *)
Definition sealed (salt iv : list byte) (iterCount : Z)
  (plaintext password : string) : Container :=
  {| ContainerMeta := {| Version := "v1.0" |};
     DeriveInfo := {| Salt := Hex.EncodeToString salt; Iters := iterCount |};
     EncryptionInfo := {| IV := Hex.EncodeToString iv |};
     ContainedData :=
       {| EncryptedData :=
            Hex.EncodeToString
              (make_bytes 16
               ++ CTR.apply (stream_of password salt iterCount iv)
                            (bytes_of_string plaintext));
          HMAC :=
            Hex.EncodeToString (SHA256.Sum256 (bytes_of_string plaintext)) |}
  |}.

(** The world after one more call of [rand.Read]. *)
Definition drawn (w : World) : World :=
  {| rand_calls := S (rand_calls w); log := log w |}.

(** A record with another payload, digest or iteration count. *)
Definition with_payload (c : Container) (payload : list byte) : Container :=
  SetContainedData c (Hex.EncodeToString payload) (HMAC (ContainedData c)).

Definition with_digest (c : Container) (digest : list byte) : Container :=
  SetContainedData c (EncryptedData (ContainedData c))
                   (Hex.EncodeToString digest).

Definition with_iters (c : Container) (iters : Z) : Container :=
  SetDeriveInfo c (Salt (DeriveInfo c)) iters.

(** The cryptographic work of a complete [DecryptContainer]. *)
Definition open_ops (iters : Z) (n : nat) : list op :=
  [ op_pbkdf2_Key iters; op_NewCipher; op_NewCTR; op_XORKeyStream n;
    op_Sum256 ].

(** The bytes of a hexadecimal text (none when it does not decode). *)
Definition bytes_of_hex (s : string) : list byte :=
  match Hex.DecodeString s with
  | inr b => b
  | inl _ => []
  end.

(** ** Example inputs *)

(** A host whose random source yields the bytes [1 + 16 k + i] on its [k]-th
    call, whose benchmark took 52 microseconds and whose generator draws
    4321. *)
Definition example_env : Env :=
  {| env_rand := fun k => inr (fun i => ascii_of_nat (1 + 16 * k + i));
     env_now := 1700000000000000000;
     env_elapsed := 52000;
     env_draw := fun _ _ => 4321 |}.

(** The record [CreateContainer "hello world" "password123"] makes on that
    host, and the world it leaves. *)
Definition example_record : Container :=
  {| ContainerMeta := {| Version := "v1.0" |};
     DeriveInfo := {| Salt := "0102030405060708090a0b0c"; Iters := 4321 |};
     EncryptionInfo := {| IV := "1112131415161718191a1b1c1d1e1f20" |};
     ContainedData :=
       {| EncryptedData :=
            "00000000000000000000000000000000bcd6660e667263a80f0c2d";
          HMAC :=
            "b94d27b9934d3e08a52e52d7da7dabfac484efe37a5380ee9088f7ace2efcde9"
       |} |}.

Definition example_world : World :=
  {| rand_calls := 2;
     log := [ op_Sum256; op_pbkdf2_Key 4321; op_NewCipher; op_NewCTR;
              op_XORKeyStream 11 ] |}.

(** [example_record] with the lowest bit of the first byte of its payload
    flipped. *)
Definition example_prefix_flipped : Container :=
  {| ContainerMeta := {| Version := "v1.0" |};
     DeriveInfo := {| Salt := "0102030405060708090a0b0c"; Iters := 4321 |};
     EncryptionInfo := {| IV := "1112131415161718191a1b1c1d1e1f20" |};
     ContainedData :=
       {| EncryptedData :=
            "01000000000000000000000000000000bcd6660e667263a80f0c2d";
          HMAC :=
            "b94d27b9934d3e08a52e52d7da7dabfac484efe37a5380ee9088f7ace2efcde9"
       |} |}.

(** A record of the same plaintext and password with an iteration count of
    zero. *)
Definition example_zero_iters : Container :=
  {| ContainerMeta := {| Version := "v1.0" |};
     DeriveInfo := {| Salt := "0102030405060708090a0b0c"; Iters := 0 |};
     EncryptionInfo := {| IV := "1112131415161718191a1b1c1d1e1f20" |};
     ContainedData :=
       {| EncryptedData :=
            "0000000000000000000000000000000076c4c2041216eed9b86d76";
          HMAC :=
            "b94d27b9934d3e08a52e52d7da7dabfac484efe37a5380ee9088f7ace2efcde9"
       |} |}.

(** The text of [example_record] without its [ContainerMeta] member. *)
Definition example_without_meta : string :=
  ("{" ++ RefJSON.quote "DeriveInfo" ++ ":{"
       ++ RefJSON.quote "Salt" ++ ":"
       ++ RefJSON.quote "0102030405060708090a0b0c" ++ ","
       ++ RefJSON.quote "Iters" ++ ":4321},"
   ++ RefJSON.quote "EncryptionInfo" ++ ":{"
       ++ RefJSON.quote "IV" ++ ":"
       ++ RefJSON.quote "1112131415161718191a1b1c1d1e1f20" ++ "},"
   ++ RefJSON.quote "ContainedData" ++ ":{"
       ++ RefJSON.quote "EncryptedData" ++ ":"
       ++ RefJSON.quote
            "00000000000000000000000000000000bcd6660e667263a80f0c2d" ++ ","
       ++ RefJSON.quote "HMAC" ++ ":"
       ++ RefJSON.quote
            "b94d27b9934d3e08a52e52d7da7dabfac484efe37a5380ee9088f7ace2efcde9"
       ++ "}}")%string.

(** A record whose salt is not hexadecimal. *)
Definition example_bad_salt : Container :=
  {| ContainerMeta := {| Version := "v1.0" |};
     DeriveInfo := {| Salt := "01zz"; Iters := 4321 |};
     EncryptionInfo := {| IV := "1112131415161718191a1b1c1d1e1f20" |};
     ContainedData :=
       {| EncryptedData :=
            "00000000000000000000000000000000bcd6660e667263a80f0c2d";
          HMAC :=
            "b94d27b9934d3e08a52e52d7da7dabfac484efe37a5380ee9088f7ace2efcde9"
       |} |}.

(** The bytes of the fields of [example_record]. *)
Definition example_salt : list byte :=
  bytes_of_hex (Salt (DeriveInfo example_record)).
Definition example_iv : list byte :=
  bytes_of_hex (IV (EncryptionInfo example_record)).
Definition example_payload : list byte :=
  bytes_of_hex (EncryptedData (ContainedData example_record)).
Definition example_digest : list byte :=
  bytes_of_hex (HMAC (ContainedData example_record)).

(** ** More vocabulary and example inputs *)

(** A record rewritten by someone who knows the plaintext [old] it holds but
    not the password: the payload past its first block is combined with
    [old ^ new], and the digest is the digest of [new]. *)
Definition forge (c : Container) (payload old new : list byte) : Container :=
  SetContainedData c
    (Hex.EncodeToString
       (firstn 16 payload
        ++ xor_bytes (skipn 16 payload) (xor_bytes old new)))
    (Hex.EncodeToString (SHA256.Sum256 new)).

(** A second host: other random bytes, a benchmark of 3 microseconds. *)
Definition example_env2 : Env :=
  {| env_rand := fun k => inr (fun i => ascii_of_nat (100 + 16 * k + i));
     env_now := 1700000000000000000;
     env_elapsed := 3000;
     env_draw := fun _ _ => 17 |}.

(** [example_record] with a payload of one byte. *)
Definition example_short_payload : Container :=
  SetContainedData example_record "00" (HMAC (ContainedData example_record)).

(** [example_record] with a vector of one byte. *)
Definition example_bad_vector : Container :=
  SetEncryptionInfo example_record "00".

(** [example_record] with its digest and its salt in upper case. *)
Definition example_upper_digest : Container :=
  SetContainedData example_record
    (EncryptedData (ContainedData example_record))
    "B94D27B9934D3E08A52E52D7DA7DABFAC484EFE37A5380EE9088F7ACE2EFCDE9".

Definition example_upper_salt : Container :=
  SetDeriveInfo example_record "0102030405060708090A0B0C" 4321.

(** [example_zero_iters] with a negative iteration count. *)
Definition example_negative_iters : Container := with_iters example_zero_iters (-5).

(** A record whose salt and vector are both not hexadecimal. *)
Definition example_two_bad : Container :=
  SetEncryptionInfo example_bad_salt "1g".

(** * Properties *)

(** ** Bytes *)

Lemma byte_xor_involutive (a k : byte) : byte_xor (byte_xor a k) k = a.
Proof.
  destruct a, k; unfold byte_xor.
  repeat match goal with
         | |- context [xorb (xorb ?x ?y) ?y] =>
             replace (xorb (xorb x y) y) with x by (destruct x, y; reflexivity)
         end.
  reflexivity.
Qed.

Lemma xor_bytes_length (src ks : list byte) :
  List.length (xor_bytes src ks) = List.length src.
Proof.
  revert ks; induction src as [|b src IH]; intros ks; simpl; [reflexivity|].
  now rewrite IH.
Qed.

Lemma xor_bytes_involutive (src ks : list byte) :
  xor_bytes (xor_bytes src ks) ks = src.
Proof.
  revert ks; induction src as [|b src IH]; intros ks; simpl; [reflexivity|].
  now rewrite byte_xor_involutive, IH.
Qed.

Lemma string_of_bytes_of_string (s : string) :
  string_of_bytes (bytes_of_string s) = s.
Proof. apply string_of_list_ascii_of_string. Qed.

Lemma make_bytes_length (n : nat) : List.length (make_bytes n) = n.
Proof. apply repeat_length. Qed.

(** ** The library functions *)

Lemma Sum256_length (data : list byte) :
  List.length (SHA256.Sum256 data) = 32%nat.
Proof. reflexivity. Qed.

Lemma Hmac_Sum_length (prf : Hmac.hmac) (msg : list byte) :
  List.length (Hmac.Sum prf msg) = 32%nat.
Proof. reflexivity. Qed.

Lemma Z_iter_invariant {A} (P : A -> Prop) (f : A -> A) (n : Z) (x : A) :
  (forall a, P a -> P (f a)) -> P x -> P (Z.iter n f x).
Proof.
  intros Hf Hx. destruct n as [|p|p]; simpl; try exact Hx.
  apply Pos.iter_invariant; auto.
Qed.

Lemma PBKDF2_F_length (prf : Hmac.hmac) (salt : list byte) (iter : Z)
  (block : nat) :
  List.length (PBKDF2.F prf salt iter block) = 32%nat.
Proof.
  unfold PBKDF2.F.
  apply (Z_iter_invariant (fun tu => List.length (fst tu) = 32%nat)).
  - intros [t u] H. unfold PBKDF2.step; simpl in *.
    now rewrite xor_bytes_length.
  - apply Hmac_Sum_length.
Qed.

Lemma PBKDF2_Key_length (password salt : list byte) (iter : Z) :
  List.length (PBKDF2.Key password salt iter 32) = 32%nat.
Proof.
  unfold PBKDF2.Key. change (Nat.div (32 + PBKDF2.hashLen - 1) PBKDF2.hashLen)
    with 1%nat.
  simpl flat_map. rewrite app_nil_r, length_firstn, PBKDF2_F_length.
  reflexivity.
Qed.

(** [pbkdf2.Key] runs the inner loop from 2 to [iter]: a count of zero, or a
    negative one, derives the key of a count of one. *)
Lemma PBKDF2_Key_iter_le_1 (password salt : list byte) (iter : Z) (n : nat) :
  iter <= 1 -> PBKDF2.Key password salt iter n = PBKDF2.Key password salt 1 n.
Proof.
  intros H. unfold PBKDF2.Key. f_equal. apply flat_map_ext; intros block.
  unfold PBKDF2.F. destruct (iter - 1) eqn:E; try lia; reflexivity.
Qed.

(** ** encoding/hex *)

Lemma fromHexChar_is_hex_digit (c : ascii) :
  is_hex_digit c = match Hex.fromHexChar c with Some _ => true | None => false end.
Proof.
  destruct c as [[] [] [] [] [] [] [] []]; reflexivity.
Qed.

Lemma list_pair_ind {A} (P : list A -> Prop) :
  P [] -> (forall a, P [a]) -> (forall a b l, P l -> P (a :: b :: l)) ->
  forall l, P l.
Proof.
  intros H0 H1 H2.
  fix IH 1. intros [|a [|b l]]; [exact H0 | apply H1 | apply H2, IH].
Qed.

Lemma Decode_EncodeByte (b : byte) (rest : list byte) :
  Hex.Decode (Hex.EncodeByte b ++ rest)
  = match Hex.Decode rest with
    | inl e => inl e
    | inr d => inr (b :: d)
    end.
Proof.
  destruct b as [[] [] [] [] [] [] [] []]; reflexivity.
Qed.

Lemma Decode_Encode (src : list byte) :
  Hex.Decode (flat_map Hex.EncodeByte src) = inr src.
Proof.
  induction src as [|b src IH]; [reflexivity|].
  change (flat_map Hex.EncodeByte (b :: src))
    with (Hex.EncodeByte b ++ flat_map Hex.EncodeByte src).
  now rewrite Decode_EncodeByte, IH.
Qed.

(** Decoding undoes encoding. *)
Lemma DecodeString_EncodeToString (src : list byte) :
  Hex.DecodeString (Hex.EncodeToString src) = inr src.
Proof.
  unfold Hex.DecodeString, Hex.EncodeToString.
  rewrite list_ascii_of_string_of_list_ascii. apply Decode_Encode.
Qed.

Lemma string_length_of_list_ascii (l : list ascii) :
  String.length (string_of_list_ascii l) = List.length l.
Proof. induction l; simpl; congruence. Qed.

Lemma string_length_list_ascii (s : string) :
  List.length (list_ascii_of_string s) = String.length s.
Proof. induction s; simpl; congruence. Qed.

(** The text of [n] bytes has [2 n] characters. *)
Lemma EncodeToString_length (src : list byte) :
  String.length (Hex.EncodeToString src) = (2 * List.length src)%nat.
Proof.
  unfold Hex.EncodeToString. rewrite string_length_of_list_ascii.
  induction src as [|b src IH]; [reflexivity|].
  change (flat_map Hex.EncodeByte (b :: src))
    with (Hex.EncodeByte b ++ flat_map Hex.EncodeByte src).
  rewrite length_app.
  change (List.length (Hex.EncodeByte b)) with 2%nat.
  simpl List.length. lia.
Qed.

Lemma EncodeByte_plain (b : byte) :
  forallb plain_char (Hex.EncodeByte b) = true.
Proof. destruct b as [[] [] [] [] [] [] [] []]; reflexivity. Qed.

Lemma EncodeToString_plain (src : list byte) :
  plain_string (Hex.EncodeToString src) = true.
Proof.
  unfold plain_string, Hex.EncodeToString.
  rewrite list_ascii_of_string_of_list_ascii.
  induction src as [|b src IH]; [reflexivity|].
  change (flat_map Hex.EncodeByte (b :: src))
    with (Hex.EncodeByte b ++ flat_map Hex.EncodeByte src).
  now rewrite forallb_app, EncodeByte_plain, IH.
Qed.

Lemma EncodeToString_inj (a b : list byte) :
  Hex.EncodeToString a = Hex.EncodeToString b -> a = b.
Proof.
  intros H. apply (f_equal Hex.DecodeString) in H.
  rewrite !DecodeString_EncodeToString in H. congruence.
Qed.

(** [hex.Decode] succeeds exactly on the texts of even length made of
    hexadecimal digits. *)
Lemma Decode_ok_iff (l : list byte) :
  (exists d, Hex.Decode l = inr d)
  <-> forallb is_hex_digit l = true /\ Nat.even (List.length l) = true.
Proof.
  induction l as [|a|a b l IH] using list_pair_ind.
  - split; [intros _; split; reflexivity | intros _; now exists []].
  - split.
    + simpl. intros [d H]. destruct (Hex.fromHexChar a); discriminate.
    + intros [_ H]; discriminate.
  - change (Hex.Decode (a :: b :: l))
      with (match Hex.fromHexChar a with
            | None => inl (Hex.InvalidByteError a)
            | Some x =>
                match Hex.fromHexChar b with
                | None => inl (Hex.InvalidByteError b)
                | Some y =>
                    match Hex.Decode l with
                    | inl e => inl e
                    | inr d => inr (ascii_of_N (x * 16 + y) :: d)
                    end
                end
            end).
    simpl forallb. simpl List.length. rewrite !fromHexChar_is_hex_digit.
    change (Nat.even (S (S (List.length l)))) with (Nat.even (List.length l)).
    destruct (Hex.fromHexChar a) as [x|], (Hex.fromHexChar b) as [y|];
      simpl; try (split; [intros [d H]; discriminate | intros [H _]; discriminate]).
    rewrite <- IH. destruct (Hex.Decode l) as [e|d].
    + split; intros [d H]; discriminate.
    + split; intros _; eexists; reflexivity.
Qed.

Lemma DecodeString_bad (s : string) :
  bad_hex s = true -> exists e, Hex.DecodeString s = inl e.
Proof.
  unfold bad_hex, Hex.DecodeString. intros H.
  destruct (Hex.Decode (list_ascii_of_string s)) as [e|d] eqn:E;
    [now exists e|].
  assert (Hok : exists d, Hex.Decode (list_ascii_of_string s) = inr d)
    by now exists d.
  apply Decode_ok_iff in Hok. destruct Hok as [Hc He].
  rewrite string_length_list_ascii in He.
  rewrite Hc, <- Nat.negb_even, He in H. discriminate.
Qed.

Lemma DecodeString_good (s : string) :
  bad_hex s = false -> exists d, Hex.DecodeString s = inr d.
Proof.
  unfold bad_hex, Hex.DecodeString. intros H.
  apply orb_false_iff in H. destruct H as [Hc He].
  apply negb_false_iff in Hc. rewrite <- Nat.negb_even in He.
  apply negb_false_iff in He.
  apply Decode_ok_iff. now rewrite string_length_list_ascii.
Qed.

(** ** Counter mode and tampering *)

Lemma byte_xor_comm3 (a k m : byte) :
  byte_xor (byte_xor a m) k = byte_xor (byte_xor a k) m.
Proof.
  destruct a, k, m; unfold byte_xor.
  f_equal; rewrite !xorb_assoc; f_equal; apply xorb_comm.
Qed.

Lemma byte_xor_same_iff (b mask : byte) : byte_xor b mask = b <-> mask = zero.
Proof.
  split.
  - intros H. rewrite <- (byte_xor_involutive b mask) in H at 2.
    destruct b as [b0 b1 b2 b3 b4 b5 b6 b7],
             mask as [m0 m1 m2 m3 m4 m5 m6 m7].
    unfold byte_xor in H. injection H as H0 H1 H2 H3 H4 H5 H6 H7.
    unfold zero.
    f_equal;
      match goal with
      | H : xorb ?b ?m = xorb (xorb ?b ?m) ?m |- ?m = false =>
          destruct b, m; simpl in H; congruence
      end.
  - intros ->. destruct b; unfold byte_xor, zero.
    now rewrite !xorb_false_r.
Qed.

Lemma flip_length (i : nat) (mask : byte) (l : list byte) :
  List.length (flip i mask l) = List.length l.
Proof.
  revert i; induction l as [|b l IH]; intros [|i]; simpl; auto.
Qed.

Lemma flip_changes (i : nat) (mask : byte) (l : list byte) :
  (i < List.length l)%nat -> mask <> zero -> flip i mask l <> l.
Proof.
  revert i; induction l as [|b l IH]; intros [|i] Hi Hm; simpl in *; try lia.
  - intros H. injection H as H. now apply byte_xor_same_iff in H.
  - intros H. injection H as H. apply (IH i); [lia | assumption | exact H].
Qed.

Lemma skipn_flip_before (n i : nat) (mask : byte) (l : list byte) :
  (i < n)%nat -> skipn n (flip i mask l) = skipn n l.
Proof.
  revert i l; induction n as [|n IH]; intros i l Hi; [lia|].
  destruct l as [|b l]; [reflexivity|].
  destruct i as [|i]; simpl; [reflexivity|]. apply IH; lia.
Qed.

Lemma skipn_flip_after (n i : nat) (mask : byte) (l : list byte) :
  (n <= i)%nat -> skipn n (flip i mask l) = flip (i - n) mask (skipn n l).
Proof.
  revert i l; induction n as [|n IH]; intros i l Hi.
  - now rewrite Nat.sub_0_r.
  - destruct l as [|b l]; [reflexivity|].
    destruct i as [|i]; [lia|]. simpl. apply IH; lia.
Qed.

Lemma xor_bytes_flip (i : nat) (mask : byte) (src ks : list byte) :
  xor_bytes (flip i mask src) ks = flip i mask (xor_bytes src ks).
Proof.
  revert i ks; induction src as [|b src IH]; intros [|i] ks; simpl;
    try reflexivity.
  - now rewrite byte_xor_comm3.
  - now rewrite IH.
Qed.

Lemma Encrypt_length (b : AES.Block) (src : list byte) :
  List.length (AES.Encrypt b src) = 16%nat.
Proof. reflexivity. Qed.

Lemma keystream_length (b : AES.Block) (c : list byte) (n : nat) :
  List.length (CTR.keystream b c n) = (16 * n)%nat.
Proof.
  revert c; induction n as [|n IH]; intros c; [reflexivity|].
  change (CTR.keystream b c (S n))
    with (AES.Encrypt b c ++ CTR.keystream b (CTR.incr c) n).
  rewrite length_app, Encrypt_length, IH. lia.
Qed.

(** The key stream [CTR.apply] makes covers its input: no byte of the input
    is left without a key byte. *)
Lemma keystream_covers (s : CTR.Stream) (src : list byte) :
  (List.length src
   < List.length (CTR.keystream (CTR.ctr_b s) (CTR.ctr_iv s)
                    (S (Nat.div (List.length src) AES.BlockSize))))%nat.
Proof.
  rewrite keystream_length. unfold AES.BlockSize.
  pose proof (Nat.div_mod_eq (List.length src) 16) as H.
  pose proof (Nat.mod_upper_bound (List.length src) 16) as H'. lia.
Qed.

Lemma CTR_apply_length (s : CTR.Stream) (src : list byte) :
  List.length (CTR.apply s src) = List.length src.
Proof. apply xor_bytes_length. Qed.

(** Applying the same fresh stream twice gives the input back. *)
Lemma CTR_apply_involutive (s : CTR.Stream) (src : list byte) :
  CTR.apply s (CTR.apply s src) = src.
Proof.
  unfold CTR.apply. rewrite xor_bytes_length. apply xor_bytes_involutive.
Qed.

(** A flipped byte of the input is a flipped byte of the output, at the same
    place. *)
Lemma CTR_apply_flip (s : CTR.Stream) (i : nat) (mask : byte)
  (src : list byte) :
  CTR.apply s (flip i mask src) = flip i mask (CTR.apply s src).
Proof.
  unfold CTR.apply. rewrite flip_length. apply xor_bytes_flip.
Qed.

(** ** Running the package *)

Opaque SHA256.Sum256 PBKDF2.Key CTR.apply Hex.EncodeToString Hex.DecodeString.
Arguments make_bytes : simpl never.

(** Reduces the projections of a record that is given field by field. *)
Ltac proj :=
  cbn [with_payload with_digest with_iters sealed SetContainedData
       SetDeriveInfo SetContainerMeta SetEncryptionInfo
       ContainerMeta DeriveInfo EncryptionInfo ContainedData
       Version Salt Iters IV EncryptedData HMAC fst snd].

Section Runs.

Context {J : JSON}.

Lemma logged_logged (w : World) (a b : list op) :
  logged (logged w a) b = logged w (a ++ b).
Proof. unfold logged; simpl. now rewrite app_assoc. Qed.

Lemma bind_Val {A B} (m : Go A) (k : A -> Go B) (e : Env) (w w' : World)
  (a : A) :
  m e w = (Val a, w') -> bind m k e w = k a e w'.
Proof. intros H. unfold bind. now rewrite H. Qed.

Lemma bind_Panic {A B} (m : Go A) (k : A -> Go B) (e : Env) (w w' : World)
  (msg : string) :
  m e w = (Panic msg, w') -> bind m k e w = (Panic msg, w').
Proof. intros H. unfold bind. now rewrite H. Qed.

Lemma run_ret {A} (a : A) (e : Env) (w : World) : ret a e w = (Val a, w).
Proof. reflexivity. Qed.

Lemma run_Sum256 (data : list byte) (e : Env) (w : World) :
  sha256_Sum256 data e w = (Val (SHA256.Sum256 data), logged w [op_Sum256]).
Proof. reflexivity. Qed.

Lemma run_pbkdf2_Key (password salt : list byte) (iter : Z) (n : nat)
  (e : Env) (w : World) :
  pbkdf2_Key password salt iter n e w
  = (Val (PBKDF2.Key password salt iter n), logged w [op_pbkdf2_Key iter]).
Proof. reflexivity. Qed.

Lemma run_NewCipher (key : list byte) (e : Env) (w : World) :
  List.length key = 32%nat ->
  aes_NewCipher key e w
  = (Val (inr {| AES.block_key := key |}), logged w [op_NewCipher]).
Proof.
  intros H. unfold aes_NewCipher, bind, record. rewrite H. reflexivity.
Qed.

Lemma run_make (n : Z) (e : Env) (w : World) :
  0 <= n -> make n e w = (Val (make_bytes (Z.to_nat n)), w).
Proof.
  intros H. unfold make. destruct (Z.ltb_spec n 0); [lia | reflexivity].
Qed.

Lemma run_make_negative (n : Z) (e : Env) (w : World) :
  n < 0 -> make n e w = (Panic "makeslice: len out of range", w).
Proof.
  intros H. unfold make. destruct (Z.ltb_spec n 0); [reflexivity | lia].
Qed.

Lemma run_NewCTR (block : AES.Block) (iv : list byte) (e : Env) (w : World) :
  List.length iv = 16%nat ->
  cipher_NewCTR block iv e w
  = (Val {| CTR.ctr_b := block; CTR.ctr_iv := iv |}, logged w [op_NewCTR]).
Proof.
  intros H. unfold cipher_NewCTR, bind, record. rewrite H. reflexivity.
Qed.

Lemma run_NewCTR_bad (block : AES.Block) (iv : list byte) (e : Env)
  (w : World) :
  List.length iv <> 16%nat ->
  cipher_NewCTR block iv e w
  = (Panic "cipher.NewCTR: IV length must equal block size",
     logged w [op_NewCTR]).
Proof.
  intros H. unfold cipher_NewCTR, bind, record, AES.BlockSize.
  destruct (Nat.eqb_spec (List.length iv) 16); [contradiction | reflexivity].
Qed.

Lemma run_slice_from (s : list byte) (lo : nat) (e : Env) (w : World) :
  (lo <= List.length s)%nat -> slice_from s lo e w = (Val (skipn lo s), w).
Proof.
  intros H. unfold slice_from.
  destruct (Nat.ltb_spec (List.length s) lo); [lia | reflexivity].
Qed.

Lemma run_XORKeyStream (s : CTR.Stream) (dst src : list byte) (e : Env)
  (w : World) :
  (List.length src <= List.length dst)%nat ->
  XORKeyStream s dst src e w
  = (Val (CTR.apply s src ++ skipn (List.length src) dst),
     logged w [op_XORKeyStream (List.length src)]).
Proof.
  intros H. unfold XORKeyStream, bind, record.
  destruct (Nat.ltb_spec (List.length dst) (List.length src));
    [lia | reflexivity].
Qed.

Lemma run_hex_DecodeString (s : string) (e : Env) (w : World) :
  hex_DecodeString s e w
  = (Val match Hex.DecodeString s with
         | inl err => inl (hex_error err)
         | inr b => inr b
         end, w).
Proof.
  unfold hex_DecodeString. destruct (Hex.DecodeString s); reflexivity.
Qed.

(** One statement of a run: the call behaves as [lem] says. *)
Ltac go lem :=
  erewrite bind_Val by (apply lem; try assumption; try lia);
  cbv beta iota.

(** [DecryptContainer] on a text that does not parse: the error of the
    parser, and nothing else done. *)
Lemma DecryptContainer_unparsed (j pw : string) (err : error) (e : Env)
  (w : World) :
  json_Unmarshal j = inl err ->
  DecryptContainer j pw e w = (Val ("", Some err), w).
Proof.
  intros H. unfold DecryptContainer. rewrite H. now go @run_ret.
Qed.

(** [DecryptContainer] up to the decoding of the three fields: the text is
    parsed, then the salt, the payload and the vector are decoded in this
    order, and the first error is returned with nothing else done. *)
Lemma DecryptContainer_decoding (j pw : string) (c : Container) (e : Env)
  (w : World) :
  json_Unmarshal j = inr c ->
  (exists err,
      (Hex.DecodeString (Salt (DeriveInfo c)) = inl err
       \/ (exists salt, Hex.DecodeString (Salt (DeriveInfo c)) = inr salt)
          /\ (Hex.DecodeString (EncryptedData (ContainedData c)) = inl err
              \/ (exists encrypted,
                     Hex.DecodeString (EncryptedData (ContainedData c))
                     = inr encrypted)
                 /\ Hex.DecodeString (IV (EncryptionInfo c)) = inl err))
      /\ DecryptContainer j pw e w = (Val ("", Some (hex_error err)), w))
  \/ (exists salt encrypted iv,
         Hex.DecodeString (Salt (DeriveInfo c)) = inr salt
         /\ Hex.DecodeString (EncryptedData (ContainedData c)) = inr encrypted
         /\ Hex.DecodeString (IV (EncryptionInfo c)) = inr iv).
Proof.
  intros H. unfold DecryptContainer. rewrite H. go @run_ret.
  go run_hex_DecodeString.
  destruct (Hex.DecodeString (Salt (DeriveInfo c))) as [err|salt] eqn:Es.
  { left; exists err; split; [now left | reflexivity]. }
  go run_hex_DecodeString.
  destruct (Hex.DecodeString (EncryptedData (ContainedData c)))
    as [err|encrypted] eqn:Ee.
  { left; exists err; split; [|reflexivity].
    right; split; [now exists salt | now left]. }
  go run_hex_DecodeString.
  destruct (Hex.DecodeString (IV (EncryptionInfo c))) as [err|iv] eqn:Ei.
  { left; exists err; split; [|reflexivity].
    right; split; [now exists salt|].
    right; split; [now exists encrypted | reflexivity]. }
  right. now exists salt, encrypted, iv.
Qed.

(** [DecryptContainer] on a record whose three fields decode, up to the
    allocation of the plaintext: the key has been derived and the cipher
    made. *)
Lemma DecryptContainer_derives (j pw : string) (c : Container)
  (salt encrypted iv : list byte) (e : Env) (w : World) :
  json_Unmarshal j = inr c ->
  Hex.DecodeString (Salt (DeriveInfo c)) = inr salt ->
  Hex.DecodeString (EncryptedData (ContainedData c)) = inr encrypted ->
  Hex.DecodeString (IV (EncryptionInfo c)) = inr iv ->
  DecryptContainer j pw e w
  = bind (make (len encrypted - Z.of_nat AES.BlockSize))
      (fun plaintext =>
         stream <- cipher_NewCTR
                     {| AES.block_key :=
                          PBKDF2.Key (bytes_of_string pw) salt
                                     (Iters (DeriveInfo c)) 32 |} iv ;;
         src <- slice_from encrypted AES.BlockSize ;;
         plaintext <- XORKeyStream stream plaintext src ;;
         check <- sha256_Sum256 plaintext ;;
         ret (verdict plaintext (HMAC (ContainedData c))))
      e (logged w [op_pbkdf2_Key (Iters (DeriveInfo c)); op_NewCipher]).
Proof.
  intros HJ Hs He Hi. unfold DecryptContainer. rewrite HJ. go @run_ret.
  go run_hex_DecodeString. rewrite Hs. cbv iota.
  go run_hex_DecodeString. rewrite He. cbv iota.
  go run_hex_DecodeString. rewrite Hi. cbv iota.
  go run_pbkdf2_Key.
  erewrite bind_Val by (apply run_NewCipher, PBKDF2_Key_length).
  cbv beta iota. rewrite logged_logged. simpl app.
  unfold bind. destruct (make _ e _) as [[plaintext|msg] w1]; [|reflexivity].
  destruct (cipher_NewCTR _ _ e w1) as [[stream|msg] w2]; [|reflexivity].
  destruct (slice_from _ _ e w2) as [[src|msg] w3]; [|reflexivity].
  destruct (XORKeyStream _ _ _ e w3) as [[pt|msg] w4]; [|reflexivity].
  destruct (sha256_Sum256 pt e w4) as [[check|msg] w5] eqn:E;
    [|discriminate].
  injection E as <- <-. unfold verdict, ret.
  destruct (negb _); reflexivity.
Qed.

(** [DecryptContainer] on a record whose three fields decode, with a payload
    of a block or more and a vector of one block: the key is derived, the
    payload past its first block is decrypted, and the digests are
    compared. *)
Lemma DecryptContainer_run (j pw : string) (c : Container)
  (salt encrypted iv : list byte) (e : Env) (w : World) :
  json_Unmarshal j = inr c ->
  Hex.DecodeString (Salt (DeriveInfo c)) = inr salt ->
  Hex.DecodeString (EncryptedData (ContainedData c)) = inr encrypted ->
  Hex.DecodeString (IV (EncryptionInfo c)) = inr iv ->
  (16 <= List.length encrypted)%nat ->
  List.length iv = 16%nat ->
  DecryptContainer j pw e w
  = (Val (verdict
            (CTR.apply (stream_of pw salt (Iters (DeriveInfo c)) iv)
                       (skipn 16 encrypted))
            (HMAC (ContainedData c))),
     logged w [ op_pbkdf2_Key (Iters (DeriveInfo c)); op_NewCipher;
                op_NewCTR; op_XORKeyStream (List.length encrypted - 16);
                op_Sum256 ]).
Proof.
  intros HJ Hs He Hi Hlen Hiv.
  rewrite (DecryptContainer_derives j pw c salt encrypted iv e w HJ Hs He Hi).
  unfold len, AES.BlockSize.
  go run_make. go run_NewCTR. go run_slice_from.
  erewrite bind_Val
    by (apply run_XORKeyStream; rewrite make_bytes_length, length_skipn; lia).
  cbv beta iota. go run_Sum256.
  rewrite (skipn_all2 (make_bytes _))
    by (rewrite make_bytes_length, length_skipn; lia).
  rewrite app_nil_r, length_skipn, !logged_logged. reflexivity.
Qed.

Ltac go_in H lem :=
  erewrite bind_Val in H by (apply lem; try assumption; try lia);
  cbv beta iota in H.

Lemma run_generateRandomBytes (n : nat) (e : Env) (w : World) :
  generateRandomBytes n e w
  = (Val match env_rand e (rand_calls w) with
         | inl err => inl err
         | inr src => inr (map src (seq 0 n))
         end, drawn w).
Proof.
  unfold generateRandomBytes, bind, rand_Read. rewrite make_bytes_length.
  destruct (env_rand e (rand_calls w)); reflexivity.
Qed.

Lemma wrap64_range (z : Z) :
  -9223372036854775808 <= wrap64 z <= 9223372036854775807.
Proof.
  unfold wrap64.
  pose proof (Z.mod_pos_bound (z + 9223372036854775808)
                              18446744073709551616 eq_refl).
  lia.
Qed.

Lemma wrap64_small (z : Z) :
  -9223372036854775808 <= z <= 9223372036854775807 -> wrap64 z = z.
Proof.
  intros H. unfold wrap64. rewrite Z.mod_small; lia.
Qed.

(** [generateRandomNumber] panics in [Intn], or returns an [int] that is at
    least 4096; it leaves the world as it was. *)
Lemma generateRandomNumber_cases (e : Env) (w : World) :
  let n := wrap64 (wrap64 (env_elapsed e) + 1) in
  (n <= 0
   /\ generateRandomNumber e w = (Panic "invalid argument to Intn", w))
  \/ (0 < n
      /\ exists r, generateRandomNumber e w = (Val r, w)
                   /\ 4096 <= r <= 9223372036854775807).
Proof.
  intros n. unfold generateRandomNumber, bind, workload, time_Now_UnixNano,
    rand_Intn. fold n.
  destruct (Z.leb_spec n 0) as [Hn|Hn]; [left; now split | right].
  split; [exact Hn|].
  set (d := env_draw e _ n mod n).
  assert (Hd : 0 <= d < n) by (apply Z.mod_pos_bound; lia).
  pose proof (wrap64_range (wrap64 (env_elapsed e) + 1)) as Hr. fold n in Hr.
  destruct (Z.ltb_spec d 4096).
  - exists 4096. split; [reflexivity | lia].
  - exists d. split; [reflexivity | lia].
Qed.

Lemma firstn_make_bytes (n m : nat) :
  firstn n (make_bytes (n + m)) = make_bytes n.
Proof.
  unfold make_bytes. rewrite repeat_app, firstn_app, repeat_length.
  rewrite Nat.sub_diag, firstn_O, app_nil_r.
  apply firstn_all2. now rewrite repeat_length.
Qed.

Lemma skipn_make_bytes (n m : nat) :
  skipn n (make_bytes (n + m)) = make_bytes m.
Proof.
  unfold make_bytes. rewrite repeat_app, skipn_app, repeat_length.
  rewrite Nat.sub_diag, skipn_O.
  rewrite skipn_all2 by now rewrite repeat_length. reflexivity.
Qed.

Lemma bytes_of_string_length (s : string) :
  List.length (bytes_of_string s) = String.length s.
Proof. apply string_length_list_ascii. Qed.

(** A call of [CreateContainer] that returns a text without an error has
    read a salt and a vector from the random source, drawn an iteration
    count that is at least 4096, and returns the text of the record made of
    them. *)
Lemma CreateContainer_inv (plaintext password r : string) (e : Env)
  (w w' : World) :
  CreateContainer plaintext password e w = (Val (r, None), w') ->
  exists src0 src1 iterCount,
    env_rand e (rand_calls w) = inr src0
    /\ env_rand e (S (rand_calls w)) = inr src1
    /\ 4096 <= iterCount <= 9223372036854775807
    /\ json_Marshal (sealed (map src0 (seq 0 saltLen)) (map src1 (seq 0 ivLen))
                            iterCount plaintext password) = inr r
    /\ w' = logged (drawn (drawn w))
                   [ op_Sum256; op_pbkdf2_Key iterCount; op_NewCipher;
                     op_NewCTR; op_XORKeyStream (String.length plaintext) ].
Proof.
  intros H. unfold CreateContainer in H.
  go_in H run_Sum256. go_in H run_generateRandomBytes.
  change (rand_calls (logged w [op_Sum256])) with (rand_calls w) in H.
  destruct (env_rand e (rand_calls w)) as [err|src0] eqn:E0; [discriminate|].
  destruct (generateRandomNumber_cases e (drawn (logged w [op_Sum256])))
    as [[_ Hp]|[_ [iterCount [Hv Hrange]]]].
  { erewrite bind_Panic in H by exact Hp. discriminate. }
  go_in H Hv. go_in H run_generateRandomBytes.
  change (rand_calls (drawn (logged w [op_Sum256])))
    with (S (rand_calls w)) in H.
  destruct (env_rand e (S (rand_calls w))) as [err|src1] eqn:E1;
    [discriminate|].
  exists src0, src1, iterCount.
  split; [reflexivity|]. split; [reflexivity|]. split; [lia|].
  go_in H run_pbkdf2_Key.
  erewrite bind_Val in H by (apply run_NewCipher, PBKDF2_Key_length).
  cbv beta iota in H.
  unfold len, AES.BlockSize in H. go_in H run_make.
  erewrite bind_Val in H by (apply run_NewCTR; reflexivity).
  cbv beta iota in H.
  rewrite <- Nat2Z.inj_add, Nat2Z.id in H.
  erewrite bind_Val in H
    by (apply run_slice_from; rewrite make_bytes_length; lia).
  cbv beta iota in H.
  rewrite skipn_make_bytes, firstn_make_bytes in H.
  erewrite bind_Val in H
    by (apply run_XORKeyStream; rewrite make_bytes_length; lia).
  cbv beta iota in H.
  rewrite (skipn_all2 (make_bytes _)) in H
    by (rewrite make_bytes_length; lia).
  rewrite app_nil_r in H.
  unfold sealed, stream_of.
  match type of H with
  | context [json_Marshal ?c] =>
      change (json_Marshal c) with
        (json_Marshal
           {| ContainerMeta := {| Version := "v1.0" |};
              DeriveInfo :=
                {| Salt := Hex.EncodeToString (map src0 (seq 0 saltLen));
                   Iters := iterCount |};
              EncryptionInfo :=
                {| IV := Hex.EncodeToString (map src1 (seq 0 ivLen)) |};
              ContainedData :=
                {| EncryptedData :=
                     Hex.EncodeToString
                       (make_bytes 16
                        ++ CTR.apply
                             {| CTR.ctr_b :=
                                  {| AES.block_key :=
                                       PBKDF2.Key (bytes_of_string password)
                                         (map src0 (seq 0 saltLen))
                                         iterCount 32 |};
                                CTR.ctr_iv := map src1 (seq 0 ivLen) |}
                             (bytes_of_string plaintext));
                   HMAC :=
                     Hex.EncodeToString
                       (SHA256.Sum256 (bytes_of_string plaintext)) |} |}) in H
  end.
  destruct (json_Marshal _) as [err|b]; unfold bind, ret in H;
    [discriminate|].
  injection H as -> <-. split; [reflexivity|].
  rewrite bytes_of_string_length.
  unfold logged, drawn; simpl. now rewrite <- !app_assoc.
Qed.

(** A payload shorter than a block: the key is derived, and the allocation
    of the plaintext panics. *)
Lemma DecryptContainer_short_payload (j pw : string) (c : Container)
  (salt encrypted iv : list byte) (e : Env) (w : World) :
  json_Unmarshal j = inr c ->
  Hex.DecodeString (Salt (DeriveInfo c)) = inr salt ->
  Hex.DecodeString (EncryptedData (ContainedData c)) = inr encrypted ->
  Hex.DecodeString (IV (EncryptionInfo c)) = inr iv ->
  (List.length encrypted < 16)%nat ->
  DecryptContainer j pw e w
  = (Panic "makeslice: len out of range",
     logged w [op_pbkdf2_Key (Iters (DeriveInfo c)); op_NewCipher]).
Proof.
  intros HJ Hs He Hi Hlen.
  rewrite (DecryptContainer_derives j pw c salt encrypted iv e w HJ Hs He Hi).
  unfold len, AES.BlockSize.
  erewrite bind_Panic; [reflexivity|]. apply run_make_negative. lia.
Qed.

(** A vector that is not one block long, under a payload of a block or
    more: [cipher.NewCTR] panics. *)
Lemma DecryptContainer_bad_vector (j pw : string) (c : Container)
  (salt encrypted iv : list byte) (e : Env) (w : World) :
  json_Unmarshal j = inr c ->
  Hex.DecodeString (Salt (DeriveInfo c)) = inr salt ->
  Hex.DecodeString (EncryptedData (ContainedData c)) = inr encrypted ->
  Hex.DecodeString (IV (EncryptionInfo c)) = inr iv ->
  (16 <= List.length encrypted)%nat ->
  List.length iv <> 16%nat ->
  DecryptContainer j pw e w
  = (Panic "cipher.NewCTR: IV length must equal block size",
     logged w [op_pbkdf2_Key (Iters (DeriveInfo c)); op_NewCipher;
               op_NewCTR]).
Proof.
  intros HJ Hs He Hi Hlen Hiv.
  rewrite (DecryptContainer_derives j pw c salt encrypted iv e w HJ Hs He Hi).
  unfold len, AES.BlockSize. go run_make.
  erewrite bind_Panic; [|apply run_NewCTR_bad; assumption].
  now rewrite logged_logged.
Qed.

Lemma verdict_match (plaintext : list byte) :
  verdict plaintext (Hex.EncodeToString (SHA256.Sum256 plaintext))
  = (string_of_bytes plaintext, None).
Proof. unfold verdict. now rewrite String.eqb_refl. Qed.

Lemma verdict_mismatch (plaintext : list byte) (hmac : string) :
  Hex.EncodeToString (SHA256.Sum256 plaintext) <> hmac ->
  verdict plaintext hmac = ("", Some (errors_New "HMAC mismatch")).
Proof.
  intros H. unfold verdict. apply String.eqb_neq in H. now rewrite H.
Qed.

Lemma is_int_range (z : Z) :
  -9223372036854775808 <= z <= 9223372036854775807 -> is_int z = true.
Proof. intros H. unfold is_int. apply andb_true_intro; split; lia. Qed.

Lemma sealed_plain (salt iv : list byte) (iterCount : Z)
  (plaintext password : string) :
  -9223372036854775808 <= iterCount <= 9223372036854775807 ->
  plain (sealed salt iv iterCount plaintext password) = true.
Proof.
  intros H. unfold plain, sealed; simpl.
  rewrite !EncodeToString_plain, is_int_range by assumption. reflexivity.
Qed.

(** The text a successful [CreateContainer] returns is read back as the
    record it assembled. *)
Lemma CreateContainer_record (plaintext password r : string) (e : Env)
  (w w' : World) :
  CreateContainer plaintext password e w = (Val (r, None), w') ->
  exists salt iv iterCount,
    List.length salt = 12%nat
    /\ List.length iv = 16%nat
    /\ 4096 <= iterCount <= 9223372036854775807
    /\ json_Unmarshal r = inr (sealed salt iv iterCount plaintext password)
    /\ log w' = log w ++ [ op_Sum256; op_pbkdf2_Key iterCount; op_NewCipher;
                           op_NewCTR;
                           op_XORKeyStream (String.length plaintext) ].
Proof.
  intros H. apply CreateContainer_inv in H.
  destruct H as (src0 & src1 & iterCount & _ & _ & Hr & HM & ->).
  exists (map src0 (seq 0 saltLen)), (map src1 (seq 0 ivLen)), iterCount.
  split; [reflexivity|]. split; [reflexivity|]. split; [exact Hr|].
  split; [|reflexivity].
  destruct (json_Unmarshal_Marshal
              (sealed (map src0 (seq 0 saltLen)) (map src1 (seq 0 ivLen))
                      iterCount plaintext password))
    as (b & Hb & Hu); [apply sealed_plain; lia|].
  congruence.
Qed.

(** Once the three fields of a record decode, the key is derived and the
    cipher made before anything else happens. *)
Lemma DecryptContainer_reaches_derivation (j pw : string) (c : Container)
  (salt encrypted iv : list byte) (e : Env) (w : World) :
  json_Unmarshal j = inr c ->
  Hex.DecodeString (Salt (DeriveInfo c)) = inr salt ->
  Hex.DecodeString (EncryptedData (ContainedData c)) = inr encrypted ->
  Hex.DecodeString (IV (EncryptionInfo c)) = inr iv ->
  exists o ops,
    DecryptContainer j pw e w
    = (o, logged w (op_pbkdf2_Key (Iters (DeriveInfo c))
                    :: op_NewCipher :: ops)).
Proof.
  intros HJ Hs He Hi.
  destruct (Nat.lt_ge_cases (List.length encrypted) 16) as [Hlt|Hge].
  { eexists _, []. now apply (DecryptContainer_short_payload j pw c salt
                                 encrypted iv). }
  destruct (Nat.eq_dec (List.length iv) 16) as [Hiv|Hiv].
  - eexists _, _. now apply (DecryptContainer_run j pw c salt encrypted iv).
  - eexists _, _.
    now apply (DecryptContainer_bad_vector j pw c salt encrypted iv).
Qed.

(** [CreateContainer] returns a record whenever the random source answers
    its two calls and the benchmark time is a duration of the monotonic
    clock. *)
Lemma CreateContainer_returns (plaintext password : string) (e : Env)
  (w : World) (src0 src1 : nat -> byte) :
  env_rand e (rand_calls w) = inr src0 ->
  env_rand e (S (rand_calls w)) = inr src1 ->
  0 <= env_elapsed e < 9223372036854775807 ->
  exists r w', CreateContainer plaintext password e w = (Val (r, None), w').
Proof.
  intros E0 E1 Hel.
  destruct (generateRandomNumber_cases e (drawn (logged w [op_Sum256])))
    as [[Hn _]|[_ [iterCount [Hv Hrange]]]].
  { rewrite (wrap64_small (env_elapsed e)) in Hn by lia.
    rewrite wrap64_small in Hn by lia. lia. }
  destruct (json_Unmarshal_Marshal
              (sealed (map src0 (seq 0 saltLen)) (map src1 (seq 0 ivLen))
                      iterCount plaintext password))
    as (b & Hb & _); [apply sealed_plain; lia|].
  exists b. unfold CreateContainer.
  go run_Sum256. go run_generateRandomBytes.
  change (rand_calls (logged w [op_Sum256])) with (rand_calls w).
  rewrite E0. cbv iota. go Hv. go run_generateRandomBytes.
  change (rand_calls (drawn (logged w [op_Sum256]))) with (S (rand_calls w)).
  rewrite E1. cbv iota. go run_pbkdf2_Key.
  erewrite bind_Val by (apply run_NewCipher, PBKDF2_Key_length).
  cbv beta iota. unfold len, AES.BlockSize. go run_make.
  erewrite bind_Val by (apply run_NewCTR; reflexivity).
  cbv beta iota. rewrite <- Nat2Z.inj_add, Nat2Z.id.
  erewrite bind_Val by (apply run_slice_from; rewrite make_bytes_length; lia).
  cbv beta iota. rewrite skipn_make_bytes, firstn_make_bytes.
  erewrite bind_Val
    by (apply run_XORKeyStream; rewrite make_bytes_length; lia).
  cbv beta iota.
  rewrite (skipn_all2 (make_bytes _)) by (rewrite make_bytes_length; lia).
  rewrite app_nil_r.
  unfold sealed, stream_of in Hb.
  match goal with
  | |- context [json_Marshal ?c] =>
      match type of Hb with
      | json_Marshal ?c' = _ => change (json_Marshal c) with (json_Marshal c')
      end
  end.
  rewrite Hb. unfold bind, ret. eexists. reflexivity.
Qed.

(** [DecryptContainer] on a genuine record: the payload past its first
    block is the plaintext under the stream of the record, and the stored
    digest is the text of the digest of the plaintext. *)
Lemma DecryptContainer_genuine (j pw plaintext : string) (c : Container)
  (salt encrypted iv : list byte) (e : Env) (w : World) :
  json_Unmarshal j = inr c ->
  Hex.DecodeString (Salt (DeriveInfo c)) = inr salt ->
  Hex.DecodeString (EncryptedData (ContainedData c)) = inr encrypted ->
  Hex.DecodeString (IV (EncryptionInfo c)) = inr iv ->
  (16 <= List.length encrypted)%nat ->
  List.length iv = 16%nat ->
  skipn 16 encrypted
  = CTR.apply (stream_of pw salt (Iters (DeriveInfo c)) iv)
              (bytes_of_string plaintext) ->
  HMAC (ContainedData c)
  = Hex.EncodeToString (SHA256.Sum256 (bytes_of_string plaintext)) ->
  DecryptContainer j pw e w
  = (Val (plaintext, None),
     logged w (open_ops (Iters (DeriveInfo c)) (String.length plaintext))).
Proof.
  intros HJ Hs He Hi Hlen Hiv Hskip Hh.
  rewrite (DecryptContainer_run j pw c salt encrypted iv e w) by assumption.
  rewrite Hskip, Hh, CTR_apply_involutive, verdict_match.
  rewrite string_of_bytes_of_string.
  replace (List.length encrypted - 16)%nat with (String.length plaintext);
    [reflexivity|].
  rewrite <- length_skipn, Hskip, CTR_apply_length.
  now rewrite bytes_of_string_length.
Qed.

(** [DecryptContainer] on a record made by [CreateContainer], under the
    password it was made with. *)
Lemma DecryptContainer_sealed (j plaintext password : string)
  (salt iv : list byte) (iterCount : Z) (e : Env) (w : World) :
  json_Unmarshal j = inr (sealed salt iv iterCount plaintext password) ->
  List.length iv = 16%nat ->
  DecryptContainer j password e w
  = (Val (plaintext, None),
     logged w (open_ops iterCount (String.length plaintext))).
Proof.
  intros HJ Hiv.
  apply (DecryptContainer_genuine j password plaintext _ salt
           (make_bytes 16
            ++ CTR.apply (stream_of password salt iterCount iv)
                         (bytes_of_string plaintext)) iv e w HJ);
    try (proj; apply DecodeString_EncodeToString); try assumption.
  - rewrite length_app, make_bytes_length. lia.
  - rewrite skipn_app, make_bytes_length, Nat.sub_diag, skipn_O.
    now rewrite (skipn_all2 (make_bytes 16)) by now rewrite make_bytes_length.
  - reflexivity.
Qed.

End Runs.

(** ** The properties of the specification *)

Section Claims.

Context {J : JSON}.

(** C1. Round trip: when [CreateContainer plaintext password] returns a
    record without an error, [DecryptContainer] on that record and the same
    password returns [plaintext] without an error, on any host and in any
    world. *)
Theorem CreateContainer_DecryptContainer (plaintext password r : string)
  (e e' : Env) (w w1 w' : World) :
  CreateContainer plaintext password e w = (Val (r, None), w1) ->
  exists iterCount,
    DecryptContainer r password e' w'
    = (Val (plaintext, None),
       logged w' (open_ops iterCount (String.length plaintext))).
Proof.
  intros H. apply CreateContainer_record in H.
  destruct H as (salt & iv & iterCount & _ & Hiv & _ & HJ & _).
  exists iterCount. now apply (DecryptContainer_sealed r _ _ salt iv).
Qed.

(** C2, amended. Tamper detection: take a record returned by
    [CreateContainer] and flip bits of one byte. A flipped byte of the stored
    digest makes [DecryptContainer] fail with [HMAC mismatch]. A flipped byte
    of the payload at index 16 or more flips the same bits of the decrypted
    byte at that index less 16, and the call fails with [HMAC mismatch]
    unless the changed plaintext has the SHA-256 digest of the original. A
    flipped byte of the first 16 bytes of the payload is not detected: the
    call returns the plaintext. *)
Theorem DecryptContainer_tampered (plaintext password r : string)
  (c : Container) (payload digest : list byte) (mask : byte) (e : Env)
  (w w1 : World) :
  CreateContainer plaintext password e w = (Val (r, None), w1) ->
  json_Unmarshal r = inr c ->
  Hex.DecodeString (EncryptedData (ContainedData c)) = inr payload ->
  Hex.DecodeString (HMAC (ContainedData c)) = inr digest ->
  mask <> zero ->
  let mismatch := Val ("", Some (errors_New "HMAC mismatch")) in
  (forall i j e' w',
      (i < List.length digest)%nat ->
      json_Unmarshal j = inr (with_digest c (flip i mask digest)) ->
      fst (DecryptContainer j password e' w') = mismatch)
  /\ (forall i j e' w',
         (16 <= i < List.length payload)%nat ->
         json_Unmarshal j = inr (with_payload c (flip i mask payload)) ->
         SHA256.Sum256 (flip (i - 16) mask (bytes_of_string plaintext))
         <> SHA256.Sum256 (bytes_of_string plaintext) ->
         fst (DecryptContainer j password e' w') = mismatch)
  /\ (forall i j e' w',
         (i < 16)%nat ->
         json_Unmarshal j = inr (with_payload c (flip i mask payload)) ->
         fst (DecryptContainer j password e' w') = Val (plaintext, None)).
Proof.
  intros H HJ Hp Hd Hmask mismatch. apply CreateContainer_record in H.
  destruct H as (salt & iv & iterCount & _ & Hiv & _ & HJ' & _).
  rewrite HJ in HJ'. injection HJ' as ->.
  simpl in Hp, Hd. rewrite DecodeString_EncodeToString in Hp, Hd.
  injection Hp as <-. injection Hd as <-.
  set (s := stream_of password salt iterCount iv).
  set (p := bytes_of_string plaintext).
  assert (Hskip : skipn 16 (make_bytes 16 ++ CTR.apply s p) = CTR.apply s p).
  { rewrite skipn_app, make_bytes_length, Nat.sub_diag, skipn_O.
    now rewrite (skipn_all2 (make_bytes 16)) by now rewrite make_bytes_length. }
  assert (Hlen : List.length (make_bytes 16 ++ CTR.apply s p)
                 = (16 + List.length p)%nat)
    by now rewrite length_app, make_bytes_length, CTR_apply_length.
  split; [|split]; intros i j e' w' Hi Hj.
  - rewrite (DecryptContainer_run j password _ salt
               (make_bytes 16 ++ CTR.apply s p) iv e' w' Hj);
      try (simpl; apply DecodeString_EncodeToString);
      try assumption; try lia.
    proj. fold s. rewrite Hskip, CTR_apply_involutive.
    rewrite verdict_mismatch; [reflexivity|].
    intros Heq. apply EncodeToString_inj in Heq.
    symmetry in Heq. now apply flip_changes in Heq.
  - intros Hsum.
    rewrite (DecryptContainer_run j password _ salt
               (flip i mask (make_bytes 16 ++ CTR.apply s p)) iv e' w' Hj);
      try (simpl; apply DecodeString_EncodeToString);
      try assumption; try (rewrite flip_length; lia).
    proj. fold s. rewrite skipn_flip_after by lia.
    rewrite Hskip, CTR_apply_flip, CTR_apply_involutive.
    rewrite verdict_mismatch; [reflexivity|].
    intros Heq. now apply EncodeToString_inj in Heq.
  - rewrite (DecryptContainer_run j password _ salt
               (flip i mask (make_bytes 16 ++ CTR.apply s p)) iv e' w' Hj);
      try (simpl; apply DecodeString_EncodeToString);
      try assumption; try (rewrite flip_length; lia).
    proj. fold s. rewrite skipn_flip_before by lia.
    rewrite Hskip, CTR_apply_involutive, verdict_match.
    unfold p. now rewrite string_of_bytes_of_string.
Qed.

(** C3, amended. Structural validation: a text [json.Unmarshal] rejects
    makes [DecryptContainer] return the empty string and that error with
    nothing else done. A record that parses is not checked for missing
    fields (an absent field is at its zero value): whenever its [Salt],
    [EncryptedData] and [IV] decode to a payload of a block or more and a
    vector of one block, the key is derived, the payload decrypted and the
    digests compared, and the call returns without an error or with the
    error [HMAC mismatch]. *)
Theorem DecryptContainer_validation (j pw : string) (e : Env) (w : World) :
  (forall err,
      json_Unmarshal j = inl err ->
      DecryptContainer j pw e w = (Val ("", Some err), w))
  /\ (forall c salt encrypted iv,
         json_Unmarshal j = inr c ->
         Hex.DecodeString (Salt (DeriveInfo c)) = inr salt ->
         Hex.DecodeString (EncryptedData (ContainedData c)) = inr encrypted ->
         Hex.DecodeString (IV (EncryptionInfo c)) = inr iv ->
         (16 <= List.length encrypted)%nat ->
         List.length iv = 16%nat ->
         exists s err,
           DecryptContainer j pw e w
           = (Val (s, err),
              logged w (open_ops (Iters (DeriveInfo c))
                                 (List.length encrypted - 16)))
           /\ (err = None
               \/ s = "" /\ err = Some (errors_New "HMAC mismatch"))).
Proof.
  split.
  - intros err H. now apply DecryptContainer_unparsed.
  - intros c salt encrypted iv HJ Hs He Hi Hlen Hiv.
    rewrite (DecryptContainer_run j pw c salt encrypted iv e w)
      by assumption.
    unfold verdict. destruct (negb _); eexists _, _; split;
      try reflexivity; auto.
Qed.

(** C4, amended. A zero iteration count: a record whose [Iters] is zero is
    not rejected. Once its three fields decode, the key is derived with the
    stored count of zero; [pbkdf2.Key] then makes its one first round, as for
    a count of one, so the call returns what it returns for the same record
    with [Iters] set to one. *)
Theorem DecryptContainer_zero_iterations (j j1 pw : string) (c : Container)
  (salt encrypted iv : list byte) (e : Env) (w : World) :
  json_Unmarshal j = inr c ->
  Iters (DeriveInfo c) = 0 ->
  Hex.DecodeString (Salt (DeriveInfo c)) = inr salt ->
  Hex.DecodeString (EncryptedData (ContainedData c)) = inr encrypted ->
  Hex.DecodeString (IV (EncryptionInfo c)) = inr iv ->
  json_Unmarshal j1 = inr (with_iters c 1) ->
  (exists o ops,
      DecryptContainer j pw e w
      = (o, logged w (op_pbkdf2_Key 0 :: op_NewCipher :: ops)))
  /\ fst (DecryptContainer j pw e w) = fst (DecryptContainer j1 pw e w).
Proof.
  intros HJ H0 Hs He Hi HJ1. split.
  - rewrite <- H0.
    now apply (DecryptContainer_reaches_derivation j pw c salt encrypted iv).
  - destruct (Nat.lt_ge_cases (List.length encrypted) 16) as [Hlt|Hge].
    { rewrite (DecryptContainer_short_payload j pw c salt encrypted iv)
        by assumption.
      now rewrite (DecryptContainer_short_payload j1 pw (with_iters c 1) salt encrypted
                   iv)
        by (proj; assumption). }
    destruct (Nat.eq_dec (List.length iv) 16) as [Hiv|Hiv].
    + rewrite (DecryptContainer_run j pw c salt encrypted iv) by assumption.
      rewrite (DecryptContainer_run j1 pw (with_iters c 1) salt encrypted
                   iv)
        by (proj; assumption).
      proj. unfold stream_of. rewrite H0.
      now rewrite (PBKDF2_Key_iter_le_1 _ _ 0) by lia.
    + rewrite (DecryptContainer_bad_vector j pw c salt encrypted iv)
        by assumption.
      now rewrite (DecryptContainer_bad_vector j1 pw (with_iters c 1) salt encrypted
                   iv)
        by (proj; assumption).
Qed.

(** C5. Decode robustness: when the text parses into a record whose [Salt],
    [EncryptedData] or [IV] has a character that is not a hexadecimal digit,
    or an odd length, [DecryptContainer] returns the empty string and an
    error of [hex.DecodeString]; it does not panic, and the world is as
    before: no key was derived, nothing decrypted, no digest computed. *)
Theorem DecryptContainer_bad_hex (j pw : string) (c : Container) (e : Env)
  (w : World) :
  json_Unmarshal j = inr c ->
  (bad_hex (Salt (DeriveInfo c))
   || bad_hex (EncryptedData (ContainedData c))
   || bad_hex (IV (EncryptionInfo c)))%bool = true ->
  exists err, DecryptContainer j pw e w = (Val ("", Some (hex_error err)), w).
Proof.
  intros HJ Hbad.
  destruct (DecryptContainer_decoding j pw c e w HJ)
    as [(err & _ & H)|(salt & encrypted & iv & Hs & He & Hi)];
    [now exists err|].
  exfalso.
  apply orb_true_iff in Hbad. destruct Hbad as [Hbad|Hbad];
    [apply orb_true_iff in Hbad; destruct Hbad as [Hbad|Hbad]|];
    apply DecodeString_bad in Hbad; destruct Hbad as [err Hbad]; congruence.
Qed.

(** C6. The integrity check: in a call that reaches the comparison (the
    record parses, its three fields decode, the payload has a block or more
    and the vector one block), when the text of the digest recomputed over
    the decrypted bytes differs from the stored [HMAC], the call returns the
    empty string and the error [HMAC mismatch]; when it is equal, the call
    returns the decrypted bytes and no error. *)
Theorem DecryptContainer_integrity (j pw : string) (c : Container)
  (salt encrypted iv : list byte) (e : Env) (w : World) :
  json_Unmarshal j = inr c ->
  Hex.DecodeString (Salt (DeriveInfo c)) = inr salt ->
  Hex.DecodeString (EncryptedData (ContainedData c)) = inr encrypted ->
  Hex.DecodeString (IV (EncryptionInfo c)) = inr iv ->
  (16 <= List.length encrypted)%nat ->
  List.length iv = 16%nat ->
  let decrypted :=
    CTR.apply (stream_of pw salt (Iters (DeriveInfo c)) iv)
              (skipn 16 encrypted) in
  let recomputed := Hex.EncodeToString (SHA256.Sum256 decrypted) in
  (recomputed <> HMAC (ContainedData c) ->
   fst (DecryptContainer j pw e w)
   = Val ("", Some (errors_New "HMAC mismatch")))
  /\ (recomputed = HMAC (ContainedData c) ->
      fst (DecryptContainer j pw e w) = Val (string_of_bytes decrypted, None)).
Proof.
  intros HJ Hs He Hi Hlen Hiv decrypted recomputed.
  rewrite (DecryptContainer_run j pw c salt encrypted iv e w) by assumption.
  fold decrypted. simpl fst. split; intros H.
  - now rewrite verdict_mismatch.
  - rewrite <- H. unfold recomputed. now rewrite verdict_match.
Qed.

(** C7. The payload: a record returned by [CreateContainer] holds a payload
    of [16 + len(plaintext)] bytes; its first 16 bytes are zero, whatever the
    key, and its bytes from 16 on are the plaintext under the cipher stream
    of the record's salt, count and vector; the stream was run once, over
    [len(plaintext)] bytes. *)
Theorem CreateContainer_payload (plaintext password r : string) (e : Env)
  (w w' : World) :
  CreateContainer plaintext password e w = (Val (r, None), w') ->
  exists c salt payload iv,
    json_Unmarshal r = inr c
    /\ Hex.DecodeString (Salt (DeriveInfo c)) = inr salt
    /\ Hex.DecodeString (EncryptedData (ContainedData c)) = inr payload
    /\ Hex.DecodeString (IV (EncryptionInfo c)) = inr iv
    /\ List.length payload = (16 + String.length plaintext)%nat
    /\ firstn 16 payload = repeat zero 16
    /\ skipn 16 payload
       = CTR.apply (stream_of password salt (Iters (DeriveInfo c)) iv)
                   (bytes_of_string plaintext)
    /\ filter (fun o => match o with op_XORKeyStream _ => true | _ => false end)
              (skipn (List.length (log w)) (log w'))
       = [op_XORKeyStream (String.length plaintext)].
Proof.
  intros H. apply CreateContainer_record in H.
  destruct H as (salt & iv & iterCount & _ & Hiv & _ & HJ & Hlog).
  eexists _, salt, _, iv. split; [exact HJ|].
  split; [apply DecodeString_EncodeToString|].
  split; [apply DecodeString_EncodeToString|].
  split; [apply DecodeString_EncodeToString|].
  split; [|split; [|split]].
  - now rewrite length_app, make_bytes_length, CTR_apply_length,
      bytes_of_string_length.
  - rewrite firstn_app, make_bytes_length, Nat.sub_diag, firstn_O, app_nil_r.
    apply firstn_all2. now rewrite make_bytes_length.
  - rewrite skipn_app, make_bytes_length, Nat.sub_diag, skipn_O.
    now rewrite (skipn_all2 (make_bytes 16)) by now rewrite make_bytes_length.
  - rewrite Hlog, skipn_app, Nat.sub_diag, skipn_O.
    now rewrite skipn_all2 by lia.
Qed.

(** C8. The calibration floor: on every host whose benchmark time is a
    duration of the monotonic clock (not negative, below the largest
    [int64]), whatever the clock and the generator, [generateRandomNumber]
    returns (it does not panic, and it has no error result) an integer that
    is at least 4096, and leaves the world as it was. *)
Theorem generateRandomNumber_floor (e : Env) (w : World) :
  0 <= env_elapsed e < 9223372036854775807 ->
  exists n, generateRandomNumber e w = (Val n, w) /\ 4096 <= n.
Proof.
  intros H.
  destruct (generateRandomNumber_cases e w) as [[Hn _]|[_ (r & Hr & Hle)]].
  - rewrite (wrap64_small (env_elapsed e)) in Hn by lia.
    rewrite wrap64_small in Hn by lia. lia.
  - exists r. split; [exact Hr | lia].
Qed.

(** C9. The shape of a record: a record returned by [CreateContainer] has
    the version tag [v1.0], a salt of 24 hexadecimal characters that decode
    to 12 bytes, a vector of 32 hexadecimal characters that decode to 16
    bytes, and a digest of 64 hexadecimal characters that decode to the 32
    bytes of SHA-256. *)
Theorem CreateContainer_shape (plaintext password r : string) (e : Env)
  (w w' : World) :
  CreateContainer plaintext password e w = (Val (r, None), w') ->
  exists c salt iv digest,
    json_Unmarshal r = inr c
    /\ Version (ContainerMeta c) = "v1.0"
    /\ String.length (Salt (DeriveInfo c)) = 24%nat
    /\ bad_hex (Salt (DeriveInfo c)) = false
    /\ Hex.DecodeString (Salt (DeriveInfo c)) = inr salt
    /\ List.length salt = 12%nat
    /\ String.length (IV (EncryptionInfo c)) = 32%nat
    /\ bad_hex (IV (EncryptionInfo c)) = false
    /\ Hex.DecodeString (IV (EncryptionInfo c)) = inr iv
    /\ List.length iv = 16%nat
    /\ String.length (HMAC (ContainedData c)) = 64%nat
    /\ bad_hex (HMAC (ContainedData c)) = false
    /\ Hex.DecodeString (HMAC (ContainedData c)) = inr digest
    /\ digest = SHA256.Sum256 (bytes_of_string plaintext)
    /\ List.length digest = 32%nat.
Proof.
  intros H. apply CreateContainer_record in H.
  destruct H as (salt & iv & iterCount & Hsalt & Hiv & _ & HJ & _).
  assert (Hgood : forall b, bad_hex (Hex.EncodeToString b) = false).
  { intros b. destruct (bad_hex (Hex.EncodeToString b)) eqn:E; [|reflexivity].
    apply DecodeString_bad in E. destruct E as [err E].
    rewrite DecodeString_EncodeToString in E. discriminate. }
  exists (sealed salt iv iterCount plaintext password), salt, iv,
    (SHA256.Sum256 (bytes_of_string plaintext)).
  simpl. rewrite !EncodeToString_length, !Hgood,
    !DecodeString_EncodeToString, Hsalt, Hiv, Sum256_length.
  repeat split; try reflexivity; assumption.
Qed.

(** C10. The version tag is not read: two texts that parse into records
    differing in [ContainerMeta.Version] only give the same result of
    [DecryptContainer], value or panic, and the same world. *)
Theorem DecryptContainer_ignores_Version (j j' pw version : string)
  (c : Container) (e : Env) (w : World) :
  json_Unmarshal j = inr c ->
  json_Unmarshal j' = inr (SetContainerMeta c version) ->
  DecryptContainer j' pw e w = DecryptContainer j pw e w.
Proof.
  intros H H'. unfold DecryptContainer. rewrite H, H'. reflexivity.
Qed.

End Claims.

(** ** The reference codec reads back what it writes *)

Section Reference.

Import RefJSON.

Lemma list_ascii_of_string_app (a b : string) :
  list_ascii_of_string (a ++ b)
  = list_ascii_of_string a ++ list_ascii_of_string b.
Proof. induction a as [|c a IH]; simpl; congruence. Qed.

Lemma lex_run_app (a b : list ascii) (l : lexer) :
  lex_run (a ++ b) l = lex_run b (lex_run a l).
Proof. apply fold_left_app. Qed.

Lemma plain_char_str (c : ascii) :
  plain_char c = true -> is_str_char c = true /\ Ascii.eqb c dq = false.
Proof.
  destruct c as [[] [] [] [] [] [] [] []]; intros H;
    try discriminate H; split; reflexivity.
Qed.

Lemma lex_str_body (v acc : list ascii) (toks : list token) :
  forallb plain_char v = true ->
  lex_run v (Some (toks, InStr acc)) = Some (toks, InStr (rev v ++ acc)).
Proof.
  revert acc; induction v as [|c v IH]; intros acc H; [reflexivity|].
  simpl in H. apply andb_true_iff in H. destruct H as [Hc Hv].
  apply plain_char_str in Hc. destruct Hc as [Hs Hq].
  simpl. rewrite Hq, Hs. fold (lex_run v (Some (toks, InStr (c :: acc)))).
  rewrite IH by assumption. now rewrite <- app_assoc.
Qed.

(** A quoted plain string is one string token. *)
Lemma lex_quote (v : string) (toks : list token) :
  plain_string v = true ->
  lex_run (list_ascii_of_string (quote v)) (Some (toks, Out))
  = Some (STR v :: toks, Out).
Proof.
  intros H. unfold quote. simpl list_ascii_of_string.
  rewrite list_ascii_of_string_app.
  change (lex_run (dq :: ?l) (Some (toks, Out)))
    with (lex_run l (Some (toks, InStr []))).
  rewrite lex_run_app, lex_str_body by exact H.
  simpl. rewrite app_nil_r, rev_involutive.
  now rewrite string_of_list_ascii_of_string.
Qed.

Lemma uint_chars_num (d : Decimal.uint) :
  forallb is_num_char (list_ascii_of_string (NilEmpty.string_of_uint d))
  = true.
Proof. induction d; simpl; auto. Qed.

Lemma print_int_chars (z : Z) :
  exists c cs,
    list_ascii_of_string (print_int z) = c :: cs
    /\ forallb is_num_char (c :: cs) = true.
Proof.
  unfold print_int, NilZero.string_of_int, NilZero.string_of_uint.
  destruct (Z.to_int z) as [d|d].
  - destruct d; simpl; eexists _, _; (split; [reflexivity|]);
      simpl; try apply uint_chars_num; reflexivity.
  - destruct d; simpl; eexists _, _; (split; [reflexivity|]);
      simpl; try apply uint_chars_num; reflexivity.
Qed.

Lemma lex_out_num (c : ascii) (toks : list token) :
  is_num_char c = true -> lex_out toks c = Some (toks, InNum [c]).
Proof.
  destruct c as [[] [] [] [] [] [] [] []]; intros H;
    try discriminate H; reflexivity.
Qed.

Lemma lex_num_body (v acc : list ascii) (toks : list token) :
  forallb is_num_char v = true ->
  lex_run v (Some (toks, InNum acc)) = Some (toks, InNum (rev v ++ acc)).
Proof.
  revert acc; induction v as [|c v IH]; intros acc H; [reflexivity|].
  simpl in H. apply andb_true_iff in H. destruct H as [Hc Hv].
  simpl. rewrite Hc. fold (lex_run v (Some (toks, InNum (c :: acc)))).
  rewrite IH by assumption. now rewrite <- app_assoc.
Qed.

Lemma read_int_print (z : Z) :
  is_int z = true ->
  read_int (rev (list_ascii_of_string (print_int z))) = Some z.
Proof.
  intros H. unfold read_int.
  rewrite rev_involutive, string_of_list_ascii_of_string.
  unfold print_int at 1. rewrite NilZero.isi.
  - rewrite DecimalZ.of_to, String.eqb_refl, H. reflexivity.
  - destruct z as [|p|p]; simpl; try discriminate.
    intros E. injection E as E. now apply DecimalPos.Unsigned.to_uint_nonnil in E.
  - destruct z as [|p|p]; simpl; try discriminate.
    intros E. injection E as E. now apply DecimalPos.Unsigned.to_uint_nonnil in E.
Qed.

(** A printed integer, up to the brace that ends its object. *)
Lemma lex_int_brace (z : Z) (toks : list token) :
  is_int z = true ->
  lex_run (list_ascii_of_string (print_int z ++ "}")) (Some (toks, Out))
  = Some (RBRACE :: INT z :: toks, Out).
Proof.
  intros H. rewrite list_ascii_of_string_app, lex_run_app.
  pose proof (read_int_print z H) as Hread.
  destruct (print_int_chars z) as (c & cs & Hcs & Hnum).
  rewrite Hcs in *. simpl in Hnum.
  apply andb_true_iff in Hnum. destruct Hnum as [Hc Hv].
  change (lex_run (c :: cs) (Some (toks, Out)))
    with (lex_run cs (lex_out toks c)).
  rewrite lex_out_num, lex_num_body by assumption.
  change (rev (c :: cs)) with (rev cs ++ [c]) in Hread.
  simpl. now rewrite Hread.
Qed.

Lemma plain_and (c : Container) :
  plain c = true ->
  plain_string (Version (ContainerMeta c)) = true
  /\ plain_string (Salt (DeriveInfo c)) = true
  /\ is_int (Iters (DeriveInfo c)) = true
  /\ plain_string (IV (EncryptionInfo c)) = true
  /\ plain_string (EncryptedData (ContainedData c)) = true
  /\ plain_string (HMAC (ContainedData c)) = true.
Proof.
  unfold plain. rewrite !andb_true_iff. tauto.
Qed.

Lemma lex_punct (p : ascii) (t : token) (toks : list token) :
  lex_out toks p = Some (t :: toks, Out) ->
  lex_run (list_ascii_of_string (String p "")) (Some (toks, Out))
  = Some (t :: toks, Out).
Proof. intros H. exact H. Qed.

(** The tokens of a printed record. *)
Lemma lex_print (c : Container) :
  plain c = true ->
  lex (print c)
  = Some [ LBRACE;
           STR "ContainerMeta"; COLON; LBRACE;
             STR "Version"; COLON; STR (Version (ContainerMeta c)); RBRACE;
           COMMA; STR "DeriveInfo"; COLON; LBRACE;
             STR "Salt"; COLON; STR (Salt (DeriveInfo c)); COMMA;
             STR "Iters"; COLON; INT (Iters (DeriveInfo c)); RBRACE;
           COMMA; STR "EncryptionInfo"; COLON; LBRACE;
             STR "IV"; COLON; STR (IV (EncryptionInfo c)); RBRACE;
           COMMA; STR "ContainedData"; COLON; LBRACE;
             STR "EncryptedData"; COLON;
             STR (EncryptedData (ContainedData c)); COMMA;
             STR "HMAC"; COLON; STR (HMAC (ContainedData c)); RBRACE;
           RBRACE ].
Proof.
  intros H. apply plain_and in H.
  destruct H as (Hv & Hs & Hn & Hi & He & Hh).
  unfold lex, print.
  repeat rewrite list_ascii_of_string_app.
  repeat rewrite lex_run_app.
  repeat first
    [ rewrite (lex_punct "{" LBRACE) by reflexivity
    | rewrite (lex_punct "}" RBRACE) by reflexivity
    | rewrite (lex_punct ":" COLON) by reflexivity
    | rewrite (lex_punct "," COMMA) by reflexivity
    | rewrite lex_quote by (assumption || reflexivity)
    | rewrite <- (lex_run_app (list_ascii_of_string (print_int _))
                              (list_ascii_of_string "}")),
        <- list_ascii_of_string_app, lex_int_brace by assumption ].
  reflexivity.
Qed.

(** The law of the codec. *)
Lemma Unmarshal_Marshal (c : Container) :
  plain c = true ->
  exists b, Marshal c = inr b /\ Unmarshal b = inr c.
Proof.
  intros H. exists (print c). unfold Marshal, Unmarshal.
  rewrite H, lex_print by exact H. split; [reflexivity|].
  destruct c as [[v] [s n] [iv] [ed h]]. reflexivity.
Qed.

End Reference.

(** The reference codec as a codec of the package. *)
#[export] Instance reference : JSON :=
  {| json_Marshal := RefJSON.Marshal;
     json_Unmarshal := RefJSON.Unmarshal;
     json_Unmarshal_Marshal := Unmarshal_Marshal |}.

(** ** The library models on published test vectors *)

Example Sum256_abc :
  Hex.EncodeToString (SHA256.Sum256 (bytes_of_string "abc"))
  = "ba7816bf8f01cfea414140de5dae2223b00361a396177a9cb410ff61f20015ad".
Proof. vm_compute. reflexivity. Qed.

Example Sum256_two_blocks :
  Hex.EncodeToString
    (SHA256.Sum256
       (bytes_of_string
          "abcdbcdecdefdefgefghfghighijhijkijkljklmklmnlmnomnopnopq"))
  = "248d6a61d20638b8e5c026930c3e6039a33ce45964ff2167f6ecedd419db06c1".
Proof. vm_compute. reflexivity. Qed.

Example PBKDF2_two_rounds :
  Hex.EncodeToString
    (PBKDF2.Key (bytes_of_string "password") (bytes_of_string "salt") 2 32)
  = "ae4d0c95af6b46d32d0adff928f06dd02a303f8ef3c251dfd6e2d85a95474c43".
Proof. vm_compute. reflexivity. Qed.

Example AES256_fips197 :
  option_map Hex.EncodeToString
    (match Hex.DecodeString
             "000102030405060708090a0b0c0d0e0f101112131415161718191a1b1c1d1e1f",
           Hex.DecodeString "00112233445566778899aabbccddeeff" with
     | inr key, inr block =>
         Some (AES.Encrypt {| AES.block_key := key |} block)
     | _, _ => None
     end)
  = Some "8ea2b7ca516745bfeafc49904b496089".
Proof. vm_compute. reflexivity. Qed.

Example CTR_sp800_38a :
  option_map Hex.EncodeToString
    (match Hex.DecodeString
             "603deb1015ca71be2b73aef0857d77811f352c073b6108d72d9810a30914dff4",
           Hex.DecodeString "f0f1f2f3f4f5f6f7f8f9fafbfcfdfeff",
           Hex.DecodeString
             "6bc1bee22e409f96e93d7e117393172aae2d8a571e03ac9c9eb76fac45af8e51"
     with
     | inr key, inr iv, inr src =>
         Some (CTR.apply {| CTR.ctr_b := {| AES.block_key := key |};
                            CTR.ctr_iv := iv |} src)
     | _, _, _ => None
     end)
  = Some "601ec313775789a5b7a7f504bbf3d228f443e3ca4d62b59aca84e990cacaf5c5".
Proof. vm_compute. reflexivity. Qed.

Example decodeHex_test :
  fst (decodeHex "48656c6c6f20576f726c64" example_env start)
  = Val (inr (bytes_of_string "Hello World")).
Proof. vm_compute. reflexivity. Qed.

Example decodeHex_invalid :
  fst (decodeHex "invalid_hex" example_env start)
  = Val (inl (hex_error (Hex.InvalidByteError "i"))).
Proof. vm_compute. reflexivity. Qed.

(** ** The package on the example inputs *)

(** The example call of [CreateContainer]. *)
Lemma example_seal :
  CreateContainer "hello world" "password123" example_env start
  = (Val (RefJSON.print example_record, None), example_world).
Proof. vm_compute. reflexivity. Qed.

Lemma example_parsed :
  json_Unmarshal (RefJSON.print example_record) = inr example_record.
Proof. vm_compute. reflexivity. Qed.

(** The package never looks for a missing member: the text without
    [ContainerMeta] is read as the record with an empty version tag. *)
Lemma example_without_meta_parsed :
  json_Unmarshal example_without_meta
  = inr (SetContainerMeta example_record "").
Proof. vm_compute. reflexivity. Qed.

Lemma example_decoded :
  Hex.DecodeString (Salt (DeriveInfo example_record)) = inr example_salt
  /\ Hex.DecodeString (EncryptedData (ContainedData example_record))
     = inr example_payload
  /\ Hex.DecodeString (IV (EncryptionInfo example_record)) = inr example_iv
  /\ Hex.DecodeString (HMAC (ContainedData example_record))
     = inr example_digest
  /\ (16 <= List.length example_payload)%nat
  /\ List.length example_iv = 16%nat.
Proof. repeat split; vm_compute; try reflexivity; lia. Qed.

Lemma bytes_of_hex_EncodeToString (b : list byte) :
  bytes_of_hex (Hex.EncodeToString b) = b.
Proof. unfold bytes_of_hex. now rewrite DecodeString_EncodeToString. Qed.

(** The payload of the example record past its first block is the plaintext
    under the stream of the record; this follows from [example_seal]. *)
Lemma example_stream :
  skipn 16 example_payload
  = CTR.apply (stream_of "password123" example_salt
                         (Iters (DeriveInfo example_record)) example_iv)
              (bytes_of_string "hello world").
Proof.
  destruct (CreateContainer_record _ _ _ _ _ _ example_seal)
    as (salt & iv & iterCount & _ & _ & _ & HJ & _).
  rewrite example_parsed in HJ.
  apply (f_equal (fun r => match r with
                           | inr c => c
                           | inl _ => example_record
                           end)) in HJ.
  cbv beta iota in HJ.
  unfold example_payload, example_salt, example_iv. rewrite HJ. proj.
  rewrite !bytes_of_hex_EncodeToString.
  rewrite skipn_app, make_bytes_length, Nat.sub_diag, skipn_O.
  now rewrite (skipn_all2 (make_bytes 16)) by now rewrite make_bytes_length.
Qed.

Lemma example_hmac :
  HMAC (ContainedData example_record)
  = Hex.EncodeToString (SHA256.Sum256 (bytes_of_string "hello world")).
Proof. vm_compute. reflexivity. Qed.

Lemma CreateContainer_DecryptContainer_witness :
  CreateContainer "hello world" "password123" example_env start
  = (Val (RefJSON.print example_record, None), example_world)
  /\ exists iterCount,
       DecryptContainer (RefJSON.print example_record) "password123"
                        example_env start
       = (Val ("hello world", None), logged start (open_ops iterCount 11)).
Proof.
  split; [exact example_seal|].
  exact (CreateContainer_DecryptContainer
           "hello world" "password123" (RefJSON.print example_record)
           example_env example_env start example_world start example_seal).
Defined.

Lemma DecryptContainer_bad_hex_witness :
  json_Unmarshal (RefJSON.print example_bad_salt) = inr example_bad_salt
  /\ bad_hex (Salt (DeriveInfo example_bad_salt)) = true
  /\ exists err,
       DecryptContainer (RefJSON.print example_bad_salt) "password123"
                        example_env start
       = (Val ("", Some (hex_error err)), start).
Proof.
  split; [vm_compute; reflexivity|]. split; [vm_compute; reflexivity|].
  apply (DecryptContainer_bad_hex
           (RefJSON.print example_bad_salt) "password123" example_bad_salt
           example_env start);
    vm_compute; reflexivity.
Defined.

(** Under another password the recomputed digest of the example record is
    not the stored one. *)
Lemma example_wrong_password :
  Hex.EncodeToString
    (SHA256.Sum256
       (CTR.apply (stream_of "wrongpass" example_salt
                             (Iters (DeriveInfo example_record)) example_iv)
                  (skipn 16 example_payload)))
  <> HMAC (ContainedData example_record).
Proof. vm_compute. discriminate. Qed.

Lemma DecryptContainer_integrity_witness :
  fst (DecryptContainer (RefJSON.print example_record) "password123"
                        example_env start)
  = Val ("hello world", None)
  /\ fst (DecryptContainer (RefJSON.print example_record) "wrongpass"
                           example_env start)
     = Val ("", Some (errors_New "HMAC mismatch")).
Proof.
  destruct example_decoded as (Hs & He & Hi & _ & Hlen & Hiv).
  split.
  - rewrite (proj2 (DecryptContainer_integrity
                      (RefJSON.print example_record) "password123"
                      example_record example_salt example_payload example_iv
                      example_env start
                      example_parsed Hs He Hi Hlen Hiv)).
    + rewrite example_stream, CTR_apply_involutive.
      now rewrite string_of_bytes_of_string.
    + rewrite example_stream, CTR_apply_involutive. symmetry.
      exact example_hmac.
  - exact (proj1 (DecryptContainer_integrity
                    (RefJSON.print example_record) "wrongpass"
                    example_record example_salt example_payload example_iv
                    example_env start
                    example_parsed Hs He Hi Hlen Hiv)
                 example_wrong_password).
Defined.

Lemma CreateContainer_payload_witness :
  CreateContainer "hello world" "password123" example_env start
  = (Val (RefJSON.print example_record, None), example_world)
  /\ exists c salt payload iv,
       json_Unmarshal (RefJSON.print example_record) = inr c
       /\ Hex.DecodeString (Salt (DeriveInfo c)) = inr salt
       /\ Hex.DecodeString (EncryptedData (ContainedData c)) = inr payload
       /\ Hex.DecodeString (IV (EncryptionInfo c)) = inr iv
       /\ List.length payload = (16 + String.length "hello world")%nat
       /\ firstn 16 payload = repeat zero 16
       /\ skipn 16 payload
          = CTR.apply (stream_of "password123" salt (Iters (DeriveInfo c)) iv)
                      (bytes_of_string "hello world")
       /\ filter (fun o => match o with
                           | op_XORKeyStream _ => true
                           | _ => false
                           end)
                 (skipn (List.length (log start)) (log example_world))
          = [op_XORKeyStream (String.length "hello world")].
Proof.
  split; [exact example_seal|].
  exact (CreateContainer_payload
           "hello world" "password123" (RefJSON.print example_record)
           example_env start example_world example_seal).
Defined.

Lemma generateRandomNumber_floor_witness :
  0 <= env_elapsed example_env < 9223372036854775807
  /\ exists n,
       generateRandomNumber example_env start = (Val n, start) /\ 4096 <= n.
Proof.
  assert (H : 0 <= env_elapsed example_env < 9223372036854775807)
    by (simpl; lia).
  split; [exact H|].
  exact (generateRandomNumber_floor example_env start H).
Defined.

Lemma CreateContainer_shape_witness :
  CreateContainer "hello world" "password123" example_env start
  = (Val (RefJSON.print example_record, None), example_world)
  /\ exists c salt iv digest,
       json_Unmarshal (RefJSON.print example_record) = inr c
       /\ Version (ContainerMeta c) = "v1.0"
       /\ String.length (Salt (DeriveInfo c)) = 24%nat
       /\ bad_hex (Salt (DeriveInfo c)) = false
       /\ Hex.DecodeString (Salt (DeriveInfo c)) = inr salt
       /\ List.length salt = 12%nat
       /\ String.length (IV (EncryptionInfo c)) = 32%nat
       /\ bad_hex (IV (EncryptionInfo c)) = false
       /\ Hex.DecodeString (IV (EncryptionInfo c)) = inr iv
       /\ List.length iv = 16%nat
       /\ String.length (HMAC (ContainedData c)) = 64%nat
       /\ bad_hex (HMAC (ContainedData c)) = false
       /\ Hex.DecodeString (HMAC (ContainedData c)) = inr digest
       /\ digest = SHA256.Sum256 (bytes_of_string "hello world")
       /\ List.length digest = 32%nat.
Proof.
  split; [exact example_seal|].
  exact (CreateContainer_shape
           "hello world" "password123" (RefJSON.print example_record)
           example_env start example_world example_seal).
Defined.

Lemma DecryptContainer_ignores_Version_witness :
  json_Unmarshal (RefJSON.print example_record) = inr example_record
  /\ json_Unmarshal example_without_meta
     = inr (SetContainerMeta example_record "")
  /\ DecryptContainer example_without_meta "password123" example_env start
     = DecryptContainer (RefJSON.print example_record) "password123"
                        example_env start.
Proof.
  split; [exact example_parsed|].
  split; [exact example_without_meta_parsed|].
  exact (DecryptContainer_ignores_Version
           (RefJSON.print example_record) example_without_meta
           "password123" "" example_record example_env start
           example_parsed example_without_meta_parsed).
Defined.

Lemma DecryptContainer_tampered_witness :
  fst (DecryptContainer
         (RefJSON.print
            (with_digest example_record (flip 31 "128" example_digest)))
         "password123" example_env start)
  = Val ("", Some (errors_New "HMAC mismatch"))
  /\ fst (DecryptContainer
            (RefJSON.print
               (with_payload example_record (flip 26 "001" example_payload)))
            "password123" example_env start)
     = Val ("", Some (errors_New "HMAC mismatch"))
  /\ fst (DecryptContainer
            (RefJSON.print
               (with_payload example_record (flip 15 "255" example_payload)))
            "password123" example_env start)
     = Val ("hello world", None).
Proof.
  destruct example_decoded as (_ & He & _ & Hd & _ & _).
  assert (H1 : "001"%char <> zero) by discriminate.
  assert (H128 : "128"%char <> zero) by discriminate.
  assert (H255 : "255"%char <> zero) by discriminate.
  split; [|split].
  - refine (proj1 (DecryptContainer_tampered
                     "hello world" "password123" _ example_record _ _ "128"
                     example_env start example_world example_seal
                     example_parsed He Hd H128)
                  31%nat _ example_env start _ _);
      vm_compute; try reflexivity; lia.
  - refine (proj1 (proj2 (DecryptContainer_tampered
                     "hello world" "password123" _ example_record _ _ "001"
                     example_env start example_world example_seal
                     example_parsed He Hd H1))
                  26%nat _ example_env start _ _ _).
    + vm_compute; lia.
    + vm_compute; reflexivity.
    + vm_compute; discriminate.
  - refine (proj2 (proj2 (DecryptContainer_tampered
                     "hello world" "password123" _ example_record _ _ "255"
                     example_env start example_world example_seal
                     example_parsed He Hd H255))
                  15%nat _ example_env start _ _);
      vm_compute; try reflexivity; lia.
Defined.

Lemma DecryptContainer_validation_witness :
  json_Unmarshal example_without_meta
  = inr (SetContainerMeta example_record "")
  /\ exists s err,
       DecryptContainer example_without_meta "password123" example_env start
       = (Val (s, err), logged start (open_ops 4321 11))
       /\ (err = None \/ s = "" /\ err = Some (errors_New "HMAC mismatch")).
Proof.
  split; [exact example_without_meta_parsed|].
  destruct example_decoded as (Hs & He & Hi & _ & Hlen & Hiv).
  exact (proj2 (DecryptContainer_validation
                  example_without_meta "password123" example_env start)
               (SetContainerMeta example_record "")
               example_salt example_payload example_iv
               example_without_meta_parsed Hs He Hi Hlen Hiv).
Defined.

Lemma DecryptContainer_zero_iterations_witness :
  Iters (DeriveInfo example_zero_iters) = 0
  /\ (exists o ops,
         DecryptContainer (RefJSON.print example_zero_iters) "password123"
                          example_env start
         = (o, logged start (op_pbkdf2_Key 0 :: op_NewCipher :: ops)))
  /\ fst (DecryptContainer (RefJSON.print example_zero_iters) "password123"
                           example_env start)
     = fst (DecryptContainer
              (RefJSON.print (with_iters example_zero_iters 1))
              "password123" example_env start).
Proof.
  split; [reflexivity|].
  eapply (DecryptContainer_zero_iterations
            (RefJSON.print example_zero_iters)
            (RefJSON.print (with_iters example_zero_iters 1))
            "password123" example_zero_iters);
    vm_compute; reflexivity.
Defined.

(** ** Where the code departs from the specification *)

(** C2 fails as stated: flipping a bit of the first byte of the payload of
    the example record is not detected; [DecryptContainer] returns the
    plaintext. *)
Lemma prefix_flip_undetected :
  CreateContainer "hello world" "password123" example_env start
  = (Val (RefJSON.print example_record, None), example_world)
  /\ example_prefix_flipped
     = with_payload example_record (flip 0 "001" example_payload)
  /\ DecryptContainer (RefJSON.print example_prefix_flipped) "password123"
                      example_env start
     = (Val ("hello world", None), logged start (open_ops 4321 11)).
Proof.
  split; [exact example_seal|]. split; [vm_compute; reflexivity|].
  destruct example_decoded as (Hs & _ & Hi & _ & _ & Hiv).
  apply (DecryptContainer_genuine
           (RefJSON.print example_prefix_flipped) "password123" "hello world"
           example_prefix_flipped example_salt
           (flip 0 "001" example_payload) example_iv example_env start);
    try assumption.
  - vm_compute; reflexivity.
  - vm_compute; reflexivity.
  - vm_compute; lia.
  - rewrite skipn_flip_before by lia. exact example_stream.
  - exact example_hmac.
Qed.

(** C3 fails as stated: the text of the example record without its
    [ContainerMeta] member lacks a field of the format, and
    [DecryptContainer] returns the plaintext and no error. *)
Lemma missing_member_accepted :
  json_Unmarshal example_without_meta
  = inr (SetContainerMeta example_record "")
  /\ DecryptContainer example_without_meta "password123" example_env start
     = (Val ("hello world", None), logged start (open_ops 4321 11)).
Proof.
  split; [exact example_without_meta_parsed|].
  destruct example_decoded as (Hs & He & Hi & _ & Hlen & Hiv).
  apply (DecryptContainer_genuine
           example_without_meta "password123" "hello world"
           (SetContainerMeta example_record "") example_salt
           example_payload example_iv example_env start);
    try assumption.
  - exact example_without_meta_parsed.
  - exact example_stream.
  - exact example_hmac.
Qed.

(** C4 fails as stated: a record with an iteration count of zero is not
    rejected; the key is derived with the count of zero and
    [DecryptContainer] returns the plaintext. *)
Lemma zero_iterations_accepted :
  Iters (DeriveInfo example_zero_iters) = 0
  /\ DecryptContainer (RefJSON.print example_zero_iters) "password123"
                      example_env start
     = (Val ("hello world", None), logged start (open_ops 0 11)).
Proof. split; vm_compute; reflexivity. Qed.

(** ** More of the package: helpers, outcomes and edge cases *)

(** One statement of a run, as in the runs above. *)
Ltac run_with lem :=
  erewrite bind_Val by (apply lem; try assumption; try lia);
  cbv beta iota.

Section Outcomes.

Context {J : JSON}.

(** X1. [generateRandomBytes length], for a length that is not negative (a
    [nat] here), makes one call of [rand.Read] and never panics: it returns
    the error of that call, or a slice of exactly [length] bytes. *)
Theorem generateRandomBytes_result (length : nat) (e : Env) (w : World) :
  exists r,
    generateRandomBytes length e w = (Val r, drawn w)
    /\ match r with
       | inl err => env_rand e (rand_calls w) = inl err
       | inr buf => List.length buf = length
       end.
Proof.
  rewrite run_generateRandomBytes.
  destruct (env_rand e (rand_calls w)) as [err|src]; eexists;
    (split; [reflexivity|]); cbv beta iota; [reflexivity|].
  now rewrite length_map, length_seq.
Qed.

(** X2. The calibrated count is bounded by the benchmark: when the benchmark
    took [elapsed] nanoseconds (a duration of the monotonic clock),
    [generateRandomNumber] returns at most the larger of 4096 and [elapsed],
    and exactly 4096 when [elapsed] is below 4096. *)
Theorem generateRandomNumber_ceiling (e : Env) (w : World) :
  0 <= env_elapsed e < 9223372036854775807 ->
  exists n,
    generateRandomNumber e w = (Val n, w)
    /\ n <= Z.max 4096 (env_elapsed e)
    /\ (env_elapsed e < 4096 -> n = 4096).
Proof.
  intros H. unfold generateRandomNumber, bind, workload, time_Now_UnixNano,
    rand_Intn.
  rewrite (wrap64_small (env_elapsed e)) by lia.
  rewrite (wrap64_small (env_elapsed e + 1)) by lia.
  destruct (Z.leb_spec (env_elapsed e + 1) 0) as [Hn|Hn]; [lia|].
  set (d := env_draw e _ _ mod (env_elapsed e + 1)).
  assert (Hd : 0 <= d < env_elapsed e + 1) by (apply Z.mod_pos_bound; lia).
  destruct (Z.ltb_spec d 4096).
  - exists 4096. split; [reflexivity|]. split; lia.
  - exists d. split; [reflexivity|]. split; lia.
Qed.

(** X3. The outcomes of [CreateContainer]: the error of the first
    [rand.Read], with nothing derived; a panic of [Intn] when the benchmark
    time plus one is not positive; the error of the second [rand.Read], with
    nothing derived; or a record and no error. It never returns an error of
    [aes.NewCipher] or of [json.Marshal], and an error always comes with the
    empty string. *)
Theorem CreateContainer_outcomes (plaintext password : string) (e : Env)
  (w : World) :
  (exists err,
      env_rand e (rand_calls w) = inl err
      /\ CreateContainer plaintext password e w
         = (Val ("", Some err), drawn (logged w [op_Sum256])))
  \/ (wrap64 (wrap64 (env_elapsed e) + 1) <= 0
      /\ CreateContainer plaintext password e w
         = (Panic "invalid argument to Intn", drawn (logged w [op_Sum256])))
  \/ (exists err,
         env_rand e (S (rand_calls w)) = inl err
         /\ CreateContainer plaintext password e w
            = (Val ("", Some err), drawn (drawn (logged w [op_Sum256]))))
  \/ (exists r w', CreateContainer plaintext password e w = (Val (r, None), w')).
Proof.
  destruct (env_rand e (rand_calls w)) as [err|src0] eqn:E0.
  { left. exists err. split; [reflexivity|]. unfold CreateContainer.
    run_with run_Sum256. run_with run_generateRandomBytes.
    change (rand_calls (logged w [op_Sum256])) with (rand_calls w).
    now rewrite E0. }
  right.
  destruct (generateRandomNumber_cases e (drawn (logged w [op_Sum256])))
    as [[Hn Hp]|[Hn [iterCount [Hv Hrange]]]].
  { left. split; [exact Hn|]. unfold CreateContainer.
    run_with run_Sum256. run_with run_generateRandomBytes.
    change (rand_calls (logged w [op_Sum256])) with (rand_calls w).
    rewrite E0. cbv iota. erewrite bind_Panic by exact Hp. reflexivity. }
  right.
  destruct (env_rand e (S (rand_calls w))) as [err|src1] eqn:E1.
  { left. exists err. split; [reflexivity|]. unfold CreateContainer.
    run_with run_Sum256. run_with run_generateRandomBytes.
    change (rand_calls (logged w [op_Sum256])) with (rand_calls w).
    rewrite E0. cbv iota. run_with Hv. run_with run_generateRandomBytes.
    change (rand_calls (drawn (logged w [op_Sum256])))
      with (S (rand_calls w)).
    now rewrite E1. }
  right.
  destruct (json_Unmarshal_Marshal
              (sealed (map src0 (seq 0 saltLen)) (map src1 (seq 0 ivLen))
                      iterCount plaintext password))
    as (b & Hb & _); [apply sealed_plain; lia|].
  exists b. unfold CreateContainer.
  run_with run_Sum256. run_with run_generateRandomBytes.
  change (rand_calls (logged w [op_Sum256])) with (rand_calls w).
  rewrite E0. cbv iota. run_with Hv. run_with run_generateRandomBytes.
  change (rand_calls (drawn (logged w [op_Sum256]))) with (S (rand_calls w)).
  rewrite E1. cbv iota. run_with run_pbkdf2_Key.
  erewrite bind_Val by (apply run_NewCipher, PBKDF2_Key_length).
  cbv beta iota. unfold len, AES.BlockSize. run_with run_make.
  erewrite bind_Val by (apply run_NewCTR; reflexivity).
  cbv beta iota. rewrite <- Nat2Z.inj_add, Nat2Z.id.
  erewrite bind_Val by (apply run_slice_from; rewrite make_bytes_length; lia).
  cbv beta iota. rewrite skipn_make_bytes, firstn_make_bytes.
  erewrite bind_Val
    by (apply run_XORKeyStream; rewrite make_bytes_length; lia).
  cbv beta iota.
  rewrite (skipn_all2 (make_bytes _)) by (rewrite make_bytes_length; lia).
  rewrite app_nil_r.
  unfold sealed, stream_of in Hb.
  match goal with
  | |- context [json_Marshal ?c] =>
      match type of Hb with
      | json_Marshal ?c' = _ => change (json_Marshal c) with (json_Marshal c')
      end
  end.
  rewrite Hb. unfold bind, ret. eexists. reflexivity.
Qed.

(** X4. [CreateContainer] returns a record and no error on every host whose
    random source answers the two calls and whose benchmark time is a
    duration of the monotonic clock, for every plaintext and password, the
    empty ones included. *)
Theorem CreateContainer_succeeds (plaintext password : string) (e : Env)
  (w : World) (src0 src1 : nat -> byte) :
  env_rand e (rand_calls w) = inr src0 ->
  env_rand e (S (rand_calls w)) = inr src1 ->
  0 <= env_elapsed e < 9223372036854775807 ->
  exists r w', CreateContainer plaintext password e w = (Val (r, None), w').
Proof. apply CreateContainer_returns. Qed.

(** X5. The iteration count of a record: a record returned by
    [CreateContainer] stores a count that is at least 4096, fits an [int],
    and is the count the key was derived with. *)
Theorem CreateContainer_iterations (plaintext password r : string) (e : Env)
  (w w' : World) :
  CreateContainer plaintext password e w = (Val (r, None), w') ->
  exists c,
    json_Unmarshal r = inr c
    /\ 4096 <= Iters (DeriveInfo c) <= 9223372036854775807
    /\ In (op_pbkdf2_Key (Iters (DeriveInfo c)))
          (skipn (List.length (log w)) (log w')).
Proof.
  intros H. apply CreateContainer_record in H.
  destruct H as (salt & iv & iterCount & _ & _ & Hr & HJ & Hlog).
  eexists. split; [exact HJ|]. proj. split; [exact Hr|].
  rewrite Hlog, skipn_app, Nat.sub_diag, skipn_O.
  rewrite skipn_all2 by lia. simpl. auto.
Qed.

(** X7. The outcomes of [DecryptContainer]: on a text that does not parse,
    the error of the parser; on a record, an error of [hex.DecodeString], a
    panic of [make], a panic of [cipher.NewCTR], the error [HMAC mismatch],
    or a string and no error. It never returns an error of [aes.NewCipher],
    and an error always comes with the empty string. *)
Theorem DecryptContainer_outcomes (j pw : string) (e : Env) (w : World) :
  match json_Unmarshal j with
  | inl err => DecryptContainer j pw e w = (Val ("", Some err), w)
  | inr c =>
      (exists err,
          DecryptContainer j pw e w = (Val ("", Some (hex_error err)), w))
      \/ fst (DecryptContainer j pw e w) = Panic "makeslice: len out of range"
      \/ fst (DecryptContainer j pw e w)
         = Panic "cipher.NewCTR: IV length must equal block size"
      \/ fst (DecryptContainer j pw e w)
         = Val ("", Some (errors_New "HMAC mismatch"))
      \/ exists s, fst (DecryptContainer j pw e w) = Val (s, None)
  end.
Proof.
  destruct (json_Unmarshal j) as [err|c] eqn:HJ.
  { now apply DecryptContainer_unparsed. }
  destruct (DecryptContainer_decoding j pw c e w HJ)
    as [(err & _ & H)|(salt & encrypted & iv & Hs & He & Hi)].
  { left. now exists err. }
  right.
  destruct (Nat.lt_ge_cases (List.length encrypted) 16) as [Hlt|Hge].
  { left.
    now rewrite (DecryptContainer_short_payload j pw c salt encrypted iv). }
  right.
  destruct (Nat.eq_dec (List.length iv) 16) as [Hiv|Hiv].
  - right.
    rewrite (DecryptContainer_run j pw c salt encrypted iv) by assumption.
    unfold verdict. destruct (negb _); [left; reflexivity|].
    right. eexists. reflexivity.
  - left.
    now rewrite (DecryptContainer_bad_vector j pw c salt encrypted iv).
Qed.

(** X8. A payload shorter than a block: when the three fields of a record
    decode and the payload has fewer than 16 bytes, [DecryptContainer]
    derives the key and then panics in [make], whose length is negative. *)
Theorem short_payload_panics (j pw : string) (c : Container)
  (salt encrypted iv : list byte) (e : Env) (w : World) :
  json_Unmarshal j = inr c ->
  Hex.DecodeString (Salt (DeriveInfo c)) = inr salt ->
  Hex.DecodeString (EncryptedData (ContainedData c)) = inr encrypted ->
  Hex.DecodeString (IV (EncryptionInfo c)) = inr iv ->
  (List.length encrypted < 16)%nat ->
  DecryptContainer j pw e w
  = (Panic "makeslice: len out of range",
     logged w [op_pbkdf2_Key (Iters (DeriveInfo c)); op_NewCipher]).
Proof. apply DecryptContainer_short_payload. Qed.

(** X9. A vector that is not one block long: when the three fields of a
    record decode, the payload has 16 bytes or more and the vector does not
    have 16 bytes, [DecryptContainer] panics in [cipher.NewCTR], after the
    key is derived. *)
Theorem bad_vector_panics (j pw : string) (c : Container)
  (salt encrypted iv : list byte) (e : Env) (w : World) :
  json_Unmarshal j = inr c ->
  Hex.DecodeString (Salt (DeriveInfo c)) = inr salt ->
  Hex.DecodeString (EncryptedData (ContainedData c)) = inr encrypted ->
  Hex.DecodeString (IV (EncryptionInfo c)) = inr iv ->
  (16 <= List.length encrypted)%nat ->
  List.length iv <> 16%nat ->
  DecryptContainer j pw e w
  = (Panic "cipher.NewCTR: IV length must equal block size",
     logged w [op_pbkdf2_Key (Iters (DeriveInfo c)); op_NewCipher;
               op_NewCTR]).
Proof. apply DecryptContainer_bad_vector. Qed.

(** X10. The order of the decoding errors: the salt is decoded first, then
    the payload, then the vector, and the error returned is that of the
    first field that does not decode, whatever the later fields hold. *)
Theorem decoding_order (j pw : string) (c : Container) (e : Env) (w : World) :
  json_Unmarshal j = inr c ->
  (forall err,
      Hex.DecodeString (Salt (DeriveInfo c)) = inl err ->
      DecryptContainer j pw e w = (Val ("", Some (hex_error err)), w))
  /\ (forall salt err,
         Hex.DecodeString (Salt (DeriveInfo c)) = inr salt ->
         Hex.DecodeString (EncryptedData (ContainedData c)) = inl err ->
         DecryptContainer j pw e w = (Val ("", Some (hex_error err)), w))
  /\ (forall salt encrypted err,
         Hex.DecodeString (Salt (DeriveInfo c)) = inr salt ->
         Hex.DecodeString (EncryptedData (ContainedData c)) = inr encrypted ->
         Hex.DecodeString (IV (EncryptionInfo c)) = inl err ->
         DecryptContainer j pw e w = (Val ("", Some (hex_error err)), w)).
Proof.
  intros HJ. split; [|split].
  - intros err Hs. unfold DecryptContainer. rewrite HJ. run_with @run_ret.
    run_with run_hex_DecodeString. now rewrite Hs.
  - intros salt err Hs He. unfold DecryptContainer. rewrite HJ.
    run_with @run_ret. run_with run_hex_DecodeString. rewrite Hs. cbv iota.
    run_with run_hex_DecodeString. now rewrite He.
  - intros salt encrypted err Hs He Hi. unfold DecryptContainer. rewrite HJ.
    run_with @run_ret. run_with run_hex_DecodeString. rewrite Hs. cbv iota.
    run_with run_hex_DecodeString. rewrite He. cbv iota.
    run_with run_hex_DecodeString. now rewrite Hi.
Qed.

End Outcomes.

(** ** Streams, keys and records that open alike *)

Lemma byte_xor_cancel (a b : byte) : byte_xor a (byte_xor a b) = b.
Proof.
  destruct a, b; unfold byte_xor.
  f_equal; rewrite <- xorb_assoc, xorb_nilpotent; apply xorb_false_l.
Qed.

Lemma xor_bytes_swap (src d ks : list byte) :
  xor_bytes (xor_bytes src d) ks = xor_bytes (xor_bytes src ks) d.
Proof.
  revert d ks; induction src as [|b src IH]; intros d ks; simpl;
    [reflexivity|].
  now rewrite byte_xor_comm3, IH.
Qed.

Lemma xor_bytes_cancel (p q : list byte) :
  List.length p = List.length q -> xor_bytes p (xor_bytes p q) = q.
Proof.
  revert q; induction p as [|a p IH]; intros [|b q] H; simpl in *;
    try discriminate; [reflexivity|].
  rewrite byte_xor_cancel, IH by congruence. reflexivity.
Qed.

Lemma bytes_of_string_of_bytes (l : list byte) :
  bytes_of_string (string_of_bytes l) = l.
Proof. apply list_ascii_of_string_of_list_ascii. Qed.

Transparent CTR.apply PBKDF2.Key.

(** The stream commutes with any mask over the bytes it is applied to:
    [CTR] has no integrity of its own. *)
Lemma CTR_apply_xor (s : CTR.Stream) (src d : list byte) :
  CTR.apply s (xor_bytes src d) = xor_bytes (CTR.apply s src) d.
Proof. unfold CTR.apply. rewrite xor_bytes_length. apply xor_bytes_swap. Qed.

Lemma CTR_apply_nil (s : CTR.Stream) : CTR.apply s [] = [].
Proof. reflexivity. Qed.

(** [hmac.New] hashes a key longer than a block: the key and its digest
    give the same derived key. *)
Lemma PBKDF2_Key_long_password (password salt : list byte) (iter : Z)
  (n : nat) :
  (64 < List.length password)%nat ->
  PBKDF2.Key (SHA256.Sum256 password) salt iter n
  = PBKDF2.Key password salt iter n.
Proof.
  intros H. unfold PBKDF2.Key.
  assert (E : Hmac.New (SHA256.Sum256 password) = Hmac.New password).
  { unfold Hmac.New, Hmac.ipad, Hmac.opad, Hmac.block_key.
    rewrite Sum256_length. unfold SHA256.BlockSize.
    destruct (Nat.ltb_spec 64 (List.length password)); [|lia].
    reflexivity. }
  now rewrite E.
Qed.

Opaque CTR.apply PBKDF2.Key.

Section Composition.

Context {J : JSON}.

(** The error of the first field that does not decode. *)
Lemma DecryptContainer_decode_error (j pw : string) (c : Container)
  (e : Env) (w : World) :
  json_Unmarshal j = inr c ->
  (forall err,
      Hex.DecodeString (Salt (DeriveInfo c)) = inl err ->
      DecryptContainer j pw e w = (Val ("", Some (hex_error err)), w))
  /\ (forall salt err,
         Hex.DecodeString (Salt (DeriveInfo c)) = inr salt ->
         Hex.DecodeString (EncryptedData (ContainedData c)) = inl err ->
         DecryptContainer j pw e w = (Val ("", Some (hex_error err)), w))
  /\ (forall salt encrypted err,
         Hex.DecodeString (Salt (DeriveInfo c)) = inr salt ->
         Hex.DecodeString (EncryptedData (ContainedData c)) = inr encrypted ->
         Hex.DecodeString (IV (EncryptionInfo c)) = inl err ->
         DecryptContainer j pw e w = (Val ("", Some (hex_error err)), w)).
Proof.
  intros HJ. split; [|split].
  - intros err Hs. unfold DecryptContainer. rewrite HJ. run_with @run_ret.
    run_with run_hex_DecodeString. now rewrite Hs.
  - intros salt err Hs He. unfold DecryptContainer. rewrite HJ.
    run_with @run_ret. run_with run_hex_DecodeString. rewrite Hs. cbv iota.
    run_with run_hex_DecodeString. now rewrite He.
  - intros salt encrypted err Hs He Hi. unfold DecryptContainer. rewrite HJ.
    run_with @run_ret. run_with run_hex_DecodeString. rewrite Hs. cbv iota.
    run_with run_hex_DecodeString. rewrite He. cbv iota.
    run_with run_hex_DecodeString. now rewrite Hi.
Qed.

(** Two records whose three fields decode alike, with the same digest text
    and the same derived key, open alike, on any host. *)
Lemma DecryptContainer_congruence (j j' pw pw' : string) (c c' : Container)
  (e e' : Env) (w w' : World) :
  json_Unmarshal j = inr c ->
  json_Unmarshal j' = inr c' ->
  Hex.DecodeString (Salt (DeriveInfo c))
  = Hex.DecodeString (Salt (DeriveInfo c')) ->
  Hex.DecodeString (EncryptedData (ContainedData c))
  = Hex.DecodeString (EncryptedData (ContainedData c')) ->
  Hex.DecodeString (IV (EncryptionInfo c))
  = Hex.DecodeString (IV (EncryptionInfo c')) ->
  HMAC (ContainedData c) = HMAC (ContainedData c') ->
  (forall salt,
      PBKDF2.Key (bytes_of_string pw) salt (Iters (DeriveInfo c)) 32
      = PBKDF2.Key (bytes_of_string pw') salt (Iters (DeriveInfo c')) 32) ->
  fst (DecryptContainer j pw e w) = fst (DecryptContainer j' pw' e' w').
Proof.
  intros HJ HJ' Es Ee Ei Eh Ek.
  destruct (DecryptContainer_decode_error j pw c e w HJ) as (B1 & B2 & B3).
  destruct (DecryptContainer_decode_error j' pw' c' e' w' HJ')
    as (B1' & B2' & B3').
  destruct (Hex.DecodeString (Salt (DeriveInfo c))) as [err|salt] eqn:Hs.
  { now rewrite (B1 err), (B1' err). }
  destruct (Hex.DecodeString (EncryptedData (ContainedData c)))
    as [err|encrypted] eqn:He.
  { now rewrite (B2 salt err), (B2' salt err). }
  destruct (Hex.DecodeString (IV (EncryptionInfo c))) as [err|iv] eqn:Hi.
  { now rewrite (B3 salt encrypted err), (B3' salt encrypted err). }
  symmetry in Es, Ee, Ei.
  destruct (Nat.lt_ge_cases (List.length encrypted) 16) as [Hlt|Hge].
  { rewrite (DecryptContainer_short_payload j pw c salt encrypted iv)
      by assumption.
    now rewrite (DecryptContainer_short_payload j' pw' c' salt encrypted iv)
      by assumption. }
  destruct (Nat.eq_dec (List.length iv) 16) as [Hiv|Hiv].
  - rewrite (DecryptContainer_run j pw c salt encrypted iv) by assumption.
    rewrite (DecryptContainer_run j' pw' c' salt encrypted iv)
      by assumption.
    unfold stream_of. now rewrite Ek, Eh.
  - rewrite (DecryptContainer_bad_vector j pw c salt encrypted iv)
      by assumption.
    now rewrite (DecryptContainer_bad_vector j' pw' c' salt encrypted iv)
      by assumption.
Qed.

(** What a call that returns a string without an error has gone through. *)
Lemma DecryptContainer_opens_inv (j pw s : string) (c : Container) (e : Env)
  (w : World) :
  json_Unmarshal j = inr c ->
  fst (DecryptContainer j pw e w) = Val (s, None) ->
  exists salt encrypted iv,
    Hex.DecodeString (Salt (DeriveInfo c)) = inr salt
    /\ Hex.DecodeString (EncryptedData (ContainedData c)) = inr encrypted
    /\ Hex.DecodeString (IV (EncryptionInfo c)) = inr iv
    /\ (16 <= List.length encrypted)%nat
    /\ List.length iv = 16%nat
    /\ bytes_of_string s
       = CTR.apply (stream_of pw salt (Iters (DeriveInfo c)) iv)
                   (skipn 16 encrypted)
    /\ HMAC (ContainedData c)
       = Hex.EncodeToString (SHA256.Sum256 (bytes_of_string s)).
Proof.
  intros HJ H.
  destruct (DecryptContainer_decoding j pw c e w HJ)
    as [(err & _ & Hd)|(salt & encrypted & iv & Hs & He & Hi)].
  { rewrite Hd in H. discriminate. }
  exists salt, encrypted, iv.
  destruct (Nat.lt_ge_cases (List.length encrypted) 16) as [Hlt|Hge].
  { rewrite (DecryptContainer_short_payload j pw c salt encrypted iv) in H
      by assumption. discriminate. }
  destruct (Nat.eq_dec (List.length iv) 16) as [Hiv|Hiv].
  2:{ rewrite (DecryptContainer_bad_vector j pw c salt encrypted iv) in H
        by assumption. discriminate. }
  rewrite (DecryptContainer_run j pw c salt encrypted iv) in H by assumption.
  cbn [fst] in H. unfold verdict in H.
  destruct (String.eqb _ _) eqn:E in H; cbn [negb] in H; [|discriminate].
  apply String.eqb_eq in E.
  assert (Hb : string_of_bytes
                 (CTR.apply (stream_of pw salt (Iters (DeriveInfo c)) iv)
                            (skipn 16 encrypted)) = s) by congruence.
  rewrite <- Hb, bytes_of_string_of_bytes. repeat split; auto.
Qed.

(** X11. Another password on a genuine record: whatever the password,
    [DecryptContainer] on a record of [CreateContainer] does not panic; it
    returns the error [HMAC mismatch], or a string of the length of the
    plaintext whose SHA-256 digest is that of the plaintext. *)
Theorem DecryptContainer_other_password (plaintext password pw r : string)
  (e e' : Env) (w w' w0 : World) :
  CreateContainer plaintext password e w = (Val (r, None), w') ->
  fst (DecryptContainer r pw e' w0)
  = Val ("", Some (errors_New "HMAC mismatch"))
  \/ exists s,
       fst (DecryptContainer r pw e' w0) = Val (s, None)
       /\ String.length s = String.length plaintext
       /\ SHA256.Sum256 (bytes_of_string s)
          = SHA256.Sum256 (bytes_of_string plaintext).
Proof.
  intros H. apply CreateContainer_record in H.
  destruct H as (salt & iv & iterCount & _ & Hiv & _ & HJ & _).
  rewrite (DecryptContainer_run r pw _ salt
             (make_bytes 16
              ++ CTR.apply (stream_of password salt iterCount iv)
                           (bytes_of_string plaintext)) iv e' w0 HJ);
    try (proj; apply DecodeString_EncodeToString); try assumption.
  2:{ rewrite length_app, make_bytes_length. lia. }
  proj. cbn [fst].
  rewrite skipn_app, make_bytes_length, Nat.sub_diag, skipn_O.
  rewrite (skipn_all2 (make_bytes 16)) by now rewrite make_bytes_length.
  cbn [app]. unfold verdict.
  destruct (String.eqb _ _) eqn:E; cbn [negb]; [right|left; reflexivity].
  apply String.eqb_eq, EncodeToString_inj in E.
  eexists. split; [reflexivity|].
  rewrite bytes_of_string_of_bytes. split; [|exact E].
  unfold string_of_bytes.
  now rewrite string_length_of_list_ascii, !CTR_apply_length,
    bytes_of_string_length.
Qed.

(** X12. The empty plaintext is not protected by the password: on a host
    whose random source answers, [CreateContainer] of the empty string
    returns a record that [DecryptContainer] opens, to the empty string and
    without an error, under every password. *)
Theorem empty_plaintext_opens (password : string) (e : Env) (w : World)
  (src0 src1 : nat -> byte) :
  env_rand e (rand_calls w) = inr src0 ->
  env_rand e (S (rand_calls w)) = inr src1 ->
  0 <= env_elapsed e < 9223372036854775807 ->
  exists r w',
    CreateContainer "" password e w = (Val (r, None), w')
    /\ forall pw e' w0, fst (DecryptContainer r pw e' w0) = Val ("", None).
Proof.
  intros E0 E1 Hel.
  destruct (CreateContainer_returns "" password e w src0 src1 E0 E1 Hel)
    as (r & w' & H).
  exists r, w'. split; [exact H|]. intros pw e' w0.
  apply CreateContainer_record in H.
  destruct H as (salt & iv & iterCount & _ & Hiv & _ & HJ & _).
  rewrite (DecryptContainer_genuine r pw "" _ salt (make_bytes 16) iv e' w0
             HJ);
    try reflexivity; try assumption;
    try (proj; apply DecodeString_EncodeToString);
    try (rewrite make_bytes_length; lia).
Qed.

(** X13. The digest is not keyed, and the stream has no integrity: from a
    record that opens to [old] under a password, anyone who knows [old] can
    make, without the password, a record that opens under that password to
    any [new] of the same length. The forged payload is the old one with
    [old xor new] over its bytes from 16 on; the forged digest is the
    SHA-256 of [new]. *)
Theorem known_plaintext_forgery (j j' pw old new : string) (c : Container)
  (encrypted : list byte) (e e' : Env) (w w' : World) :
  json_Unmarshal j = inr c ->
  Hex.DecodeString (EncryptedData (ContainedData c)) = inr encrypted ->
  fst (DecryptContainer j pw e w) = Val (old, None) ->
  String.length new = String.length old ->
  json_Unmarshal j'
  = inr (forge c encrypted (bytes_of_string old) (bytes_of_string new)) ->
  fst (DecryptContainer j' pw e' w') = Val (new, None).
Proof.
  intros HJ He H Hlen HJ'.
  destruct (DecryptContainer_opens_inv j pw old c e w HJ H)
    as (salt & encrypted' & iv & Hs & He' & Hi & Hge & Hiv & Hold & _).
  assert (encrypted' = encrypted) by congruence. subst encrypted'.
  set (st := stream_of pw salt (Iters (DeriveInfo c)) iv) in *.
  set (d := xor_bytes (bytes_of_string old) (bytes_of_string new)).
  rewrite (DecryptContainer_genuine j' pw new _ salt
             (firstn 16 encrypted ++ xor_bytes (skipn 16 encrypted) d)
             iv e' w' HJ');
    try reflexivity; try assumption;
    try (proj; apply DecodeString_EncodeToString).
  - rewrite length_app, length_firstn. lia.
  - proj. fold st.
    assert (Hf : List.length (firstn 16 encrypted) = 16%nat)
      by (rewrite length_firstn; lia).
    rewrite skipn_app, Hf, Nat.sub_diag, skipn_O.
    rewrite (skipn_all2 (firstn 16 encrypted)) by lia. cbn [app].
    rewrite <- (xor_bytes_cancel (bytes_of_string old) (bytes_of_string new))
      at 2 by (rewrite !bytes_of_string_length; lia).
    fold d. rewrite CTR_apply_xor. f_equal.
    now rewrite Hold, CTR_apply_involutive.
Qed.

(** X14. The digests are compared as texts: on a record that opens under a
    password, any other text in the [HMAC] field, also one that decodes to
    the same 32 bytes (the digest in upper case), gives the error
    [HMAC mismatch]. *)
Theorem digest_compared_as_text (j j' pw s hmac : string) (c : Container)
  (e e' : Env) (w w' : World) :
  json_Unmarshal j = inr c ->
  fst (DecryptContainer j pw e w) = Val (s, None) ->
  json_Unmarshal j'
  = inr (SetContainedData c (EncryptedData (ContainedData c)) hmac) ->
  hmac <> HMAC (ContainedData c) ->
  fst (DecryptContainer j' pw e' w')
  = Val ("", Some (errors_New "HMAC mismatch")).
Proof.
  intros HJ H HJ' Hne.
  destruct (DecryptContainer_opens_inv j pw s c e w HJ H)
    as (salt & encrypted & iv & Hs & He & Hi & Hge & Hiv & Hold & Hh).
  rewrite (DecryptContainer_run j' pw _ salt encrypted iv e' w' HJ')
    by (proj; assumption).
  proj. cbn [fst]. rewrite <- Hold, verdict_mismatch; [reflexivity|].
  congruence.
Qed.

(** X15. [DecryptContainer] reads a record through the bytes its [Salt],
    [EncryptedData] and [IV] decode to, its [Iters] and the text of its
    [HMAC]: two records that agree on these (the same hexadecimal digits in
    another case, another version tag) give the same result, on any host
    and in any state. *)
Theorem DecryptContainer_by_value (j j' pw : string) (c c' : Container)
  (e e' : Env) (w w' : World) :
  json_Unmarshal j = inr c ->
  json_Unmarshal j' = inr c' ->
  Hex.DecodeString (Salt (DeriveInfo c))
  = Hex.DecodeString (Salt (DeriveInfo c')) ->
  Hex.DecodeString (EncryptedData (ContainedData c))
  = Hex.DecodeString (EncryptedData (ContainedData c')) ->
  Hex.DecodeString (IV (EncryptionInfo c))
  = Hex.DecodeString (IV (EncryptionInfo c')) ->
  Iters (DeriveInfo c) = Iters (DeriveInfo c') ->
  HMAC (ContainedData c) = HMAC (ContainedData c') ->
  fst (DecryptContainer j pw e w) = fst (DecryptContainer j' pw e' w').
Proof.
  intros HJ HJ' Es Ee Ei En Eh.
  apply (DecryptContainer_congruence j j' pw pw c c'); try assumption.
  intros salt. now rewrite En.
Qed.

(** X16. An iteration count of one or less, negative counts included, is
    accepted: [pbkdf2.Key] makes its first round only, so the record gives
    the result of the same record with [Iters] set to one. *)
Theorem DecryptContainer_low_iterations (j j1 pw : string) (c : Container)
  (e : Env) (w : World) :
  json_Unmarshal j = inr c ->
  Iters (DeriveInfo c) <= 1 ->
  json_Unmarshal j1 = inr (with_iters c 1) ->
  fst (DecryptContainer j pw e w) = fst (DecryptContainer j1 pw e w).
Proof.
  intros HJ Hn HJ1.
  apply (DecryptContainer_congruence j j1 pw pw c (with_iters c 1) _ _ _ _
           HJ HJ1 eq_refl eq_refl eq_refl eq_refl).
  intros salt. proj. now apply PBKDF2_Key_iter_le_1.
Qed.

(** X17. A password longer than 64 bytes has an alias: [hmac.New] hashes
    such a key, so the 32 bytes of its SHA-256 digest, taken as a password,
    give the same result on every record. *)
Theorem long_password_alias (j pw : string) (e : Env) (w : World) :
  (64 < String.length pw)%nat ->
  fst (DecryptContainer j
         (string_of_bytes (SHA256.Sum256 (bytes_of_string pw))) e w)
  = fst (DecryptContainer j pw e w).
Proof.
  intros H. destruct (json_Unmarshal j) as [err|c] eqn:HJ.
  { now rewrite !(DecryptContainer_unparsed j _ err). }
  apply (DecryptContainer_congruence j j _ pw c c _ _ _ _ HJ HJ
           eq_refl eq_refl eq_refl eq_refl).
  intros salt. rewrite bytes_of_string_of_bytes.
  apply PBKDF2_Key_long_password. now rewrite bytes_of_string_length.
Qed.

End Composition.

(** ** Fresh salts and vectors, and [decodeHex] *)

Lemma Decode_length (l d : list byte) :
  Hex.Decode l = inr d -> List.length l = (2 * List.length d)%nat.
Proof.
  revert d. induction l as [|a|a b l IH] using list_pair_ind; intros d H.
  - injection H as <-. reflexivity.
  - simpl in H. destruct (Hex.fromHexChar a); discriminate.
  - change (Hex.Decode (a :: b :: l))
      with (match Hex.fromHexChar a with
            | None => inl (Hex.InvalidByteError a)
            | Some x =>
                match Hex.fromHexChar b with
                | None => inl (Hex.InvalidByteError b)
                | Some y =>
                    match Hex.Decode l with
                    | inl e => inl e
                    | inr d => inr (ascii_of_N (x * 16 + y) :: d)
                    end
                end
            end) in H.
    destruct (Hex.fromHexChar a) as [x|]; [|discriminate].
    destruct (Hex.fromHexChar b) as [y|]; [|discriminate].
    destruct (Hex.Decode l) as [e|d'] eqn:E; [discriminate|].
    injection H as <-. simpl List.length. rewrite (IH d' eq_refl). lia.
Qed.

Section Fresh.

Context {J : JSON}.

(** The codec writes different records as different texts. *)
Lemma json_Marshal_inj (c c' : Container) (r : string) :
  plain c = true -> plain c' = true ->
  json_Marshal c = inr r -> json_Marshal c' = inr r -> c = c'.
Proof.
  intros Hp Hp' H H'.
  destruct (json_Unmarshal_Marshal c Hp) as (b & Hb & Hu).
  destruct (json_Unmarshal_Marshal c' Hp') as (b' & Hb' & Hu').
  assert (b = r) by congruence. assert (b' = r) by congruence. subst b b'.
  congruence.
Qed.

(** X6. Fresh salt and vector: two calls of [CreateContainer] whose random
    sources answer, and differ in one of the 12 bytes drawn for the salt or
    of the 16 bytes drawn for the vector, return different records, also for
    the same plaintext and password. *)
Theorem CreateContainer_fresh (plaintext password plaintext' password'
  : string) (e e' : Env) (w w' : World) (src0 src1 src0' src1' : nat -> byte) :
  env_rand e (rand_calls w) = inr src0 ->
  env_rand e (S (rand_calls w)) = inr src1 ->
  env_rand e' (rand_calls w') = inr src0' ->
  env_rand e' (S (rand_calls w')) = inr src1' ->
  0 <= env_elapsed e < 9223372036854775807 ->
  0 <= env_elapsed e' < 9223372036854775807 ->
  (exists i, (i < 12)%nat /\ src0 i <> src0' i)
  \/ (exists i, (i < 16)%nat /\ src1 i <> src1' i) ->
  exists r r' w1 w1',
    CreateContainer plaintext password e w = (Val (r, None), w1)
    /\ CreateContainer plaintext' password' e' w' = (Val (r', None), w1')
    /\ r <> r'.
Proof.
  intros E0 E1 E0' E1' Hel Hel' Hd.
  destruct (CreateContainer_returns plaintext password e w src0 src1
              E0 E1 Hel) as (r & w1 & H).
  destruct (CreateContainer_returns plaintext' password' e' w' src0' src1'
              E0' E1' Hel') as (r' & w1' & H').
  exists r, r', w1, w1'. split; [exact H|]. split; [exact H'|].
  intros ->.
  apply CreateContainer_inv in H, H'.
  destruct H as (a0 & a1 & n & A0 & A1 & Hn & HM & _).
  destruct H' as (b0 & b1 & n' & B0 & B1 & Hn' & HM' & _).
  assert (a0 = src0) by congruence. assert (a1 = src1) by congruence.
  assert (b0 = src0') by congruence. assert (b1 = src1') by congruence.
  subst a0 a1 b0 b1.
  pose proof (json_Marshal_inj _ _ _
                (sealed_plain _ _ n plaintext password ltac:(lia))
                (sealed_plain _ _ n' plaintext' password' ltac:(lia))
                HM HM') as Heq.
  destruct Hd as [(i & Hi & Hne)|(i & Hi & Hne)]; apply Hne.
  - apply (f_equal (fun c => Salt (DeriveInfo c))) in Heq.
    unfold sealed in Heq. cbn beta iota delta [Salt DeriveInfo] in Heq.
    apply EncodeToString_inj in Heq.
    apply (proj1 map_ext_in_iff Heq), in_seq. unfold saltLen. lia.
  - apply (f_equal (fun c => IV (EncryptionInfo c))) in Heq.
    unfold sealed in Heq. cbn beta iota delta [IV EncryptionInfo] in Heq.
    apply EncodeToString_inj in Heq.
    apply (proj1 map_ext_in_iff Heq), in_seq. unfold ivLen. lia.
Qed.

(** X18. [decodeHex] undoes [hex.EncodeToString]: the text of any bytes is
    decoded to these bytes, without an error, and nothing else is done. *)
Theorem decodeHex_EncodeToString (b : list byte) (e : Env) (w : World) :
  decodeHex (Hex.EncodeToString b) e w = (Val (inr b), w).
Proof.
  unfold decodeHex. run_with run_hex_DecodeString.
  now rewrite DecodeString_EncodeToString.
Qed.

(** X19. What [decodeHex] accepts: it never panics and does nothing else;
    it returns bytes exactly on the texts of even length made of hexadecimal
    digits of either case, one byte for two characters, and an error of
    [hex.DecodeString] on every other text. *)
Theorem decodeHex_result (hexStr : string) (e : Env) (w : World) :
  exists r,
    decodeHex hexStr e w = (Val r, w)
    /\ match r with
       | inr bytes =>
           bad_hex hexStr = false
           /\ String.length hexStr = (2 * List.length bytes)%nat
       | inl err => bad_hex hexStr = true /\ exists h, err = hex_error h
       end.
Proof.
  unfold decodeHex. run_with run_hex_DecodeString.
  destruct (bad_hex hexStr) eqn:Hb.
  - destruct (DecodeString_bad hexStr Hb) as (h & Hh). rewrite Hh.
    eexists. split; [reflexivity|]. split; [reflexivity|]. now exists h.
  - destruct (DecodeString_good hexStr Hb) as (d & Hd). rewrite Hd.
    eexists. split; [reflexivity|]. split; [reflexivity|].
    rewrite <- string_length_list_ascii. now apply Decode_length.
Qed.

End Fresh.

(** ** These properties on the example inputs *)

(** The example record opens under its password, on any host. *)
Lemma example_opens (e : Env) (w : World) :
  DecryptContainer (RefJSON.print example_record) "password123" e w
  = (Val ("hello world", None), logged w (open_ops 4321 11)).
Proof.
  destruct example_decoded as (Hs & He & Hi & _ & Hlen & Hiv).
  apply (DecryptContainer_genuine
           (RefJSON.print example_record) "password123" "hello world"
           example_record example_salt example_payload example_iv e w);
    try assumption.
  - exact example_parsed.
  - exact example_stream.
  - exact example_hmac.
Qed.

Lemma generateRandomNumber_ceiling_witness :
  0 <= env_elapsed example_env2 < 9223372036854775807
  /\ exists n,
       generateRandomNumber example_env2 start = (Val n, start)
       /\ n <= Z.max 4096 (env_elapsed example_env2)
       /\ (env_elapsed example_env2 < 4096 -> n = 4096).
Proof.
  assert (H : 0 <= env_elapsed example_env2 < 9223372036854775807)
    by (simpl; lia).
  split; [exact H|].
  exact (generateRandomNumber_ceiling example_env2 start H).
Defined.

Lemma CreateContainer_succeeds_witness :
  exists r w',
    CreateContainer "" "" example_env2 start = (Val (r, None), w').
Proof.
  apply (CreateContainer_succeeds
           "" "" example_env2 start
           (fun i => ascii_of_nat (100 + 16 * 0 + i))
           (fun i => ascii_of_nat (100 + 16 * 1 + i)));
    [reflexivity | reflexivity | simpl; lia].
Defined.

Lemma CreateContainer_iterations_witness :
  CreateContainer "hello world" "password123" example_env start
  = (Val (RefJSON.print example_record, None), example_world)
  /\ exists c,
       json_Unmarshal (RefJSON.print example_record) = inr c
       /\ 4096 <= Iters (DeriveInfo c) <= 9223372036854775807
       /\ In (op_pbkdf2_Key (Iters (DeriveInfo c)))
             (skipn (List.length (log start)) (log example_world)).
Proof.
  split; [exact example_seal|].
  exact (CreateContainer_iterations
           "hello world" "password123" (RefJSON.print example_record)
           example_env start example_world example_seal).
Defined.

(** Two calls in a row, as in the test of the package: the second call draws
    the bytes of the calls 2 and 3 of [rand.Read]. *)
Lemma CreateContainer_fresh_witness :
  exists r r' w1 w1',
    CreateContainer "hello world" "password123" example_env start
    = (Val (r, None), w1)
    /\ CreateContainer "hello world" "password123" example_env example_world
       = (Val (r', None), w1')
    /\ r <> r'.
Proof.
  apply (CreateContainer_fresh
           "hello world" "password123" "hello world" "password123"
           example_env example_env start example_world
           (fun i => ascii_of_nat (1 + 16 * 0 + i))
           (fun i => ascii_of_nat (1 + 16 * 1 + i))
           (fun i => ascii_of_nat (1 + 16 * 2 + i))
           (fun i => ascii_of_nat (1 + 16 * 3 + i)));
    try reflexivity; try (simpl; lia).
  left. exists 0%nat. split; [lia | discriminate].
Defined.

Lemma short_payload_panics_witness :
  (List.length [zero] < 16)%nat
  /\ DecryptContainer (RefJSON.print example_short_payload) "password123"
                      example_env start
     = (Panic "makeslice: len out of range",
        logged start [op_pbkdf2_Key 4321; op_NewCipher]).
Proof.
  split; [simpl; lia|].
  apply (short_payload_panics
           (RefJSON.print example_short_payload) "password123"
           example_short_payload example_salt [zero] example_iv
           example_env start);
    try (vm_compute; reflexivity).
  simpl; lia.
Defined.

Lemma bad_vector_panics_witness :
  List.length [zero] <> 16%nat
  /\ DecryptContainer (RefJSON.print example_bad_vector) "password123"
                      example_env start
     = (Panic "cipher.NewCTR: IV length must equal block size",
        logged start [op_pbkdf2_Key 4321; op_NewCipher; op_NewCTR]).
Proof.
  split; [discriminate|].
  apply (bad_vector_panics
           (RefJSON.print example_bad_vector) "password123"
           example_bad_vector example_salt example_payload [zero]
           example_env start);
    try (vm_compute; reflexivity).
  - vm_compute; lia.
  - discriminate.
Defined.

(** The salt and the vector of [example_two_bad] are both bad: the error is
    that of the salt. *)
Lemma decoding_order_witness :
  Hex.DecodeString (Salt (DeriveInfo example_two_bad))
  = inl (Hex.InvalidByteError "z")
  /\ Hex.DecodeString (IV (EncryptionInfo example_two_bad))
     = inl (Hex.InvalidByteError "g")
  /\ DecryptContainer (RefJSON.print example_two_bad) "password123"
                      example_env start
     = (Val ("", Some (hex_error (Hex.InvalidByteError "z"))), start).
Proof.
  split; [vm_compute; reflexivity|]. split; [vm_compute; reflexivity|].
  assert (HJ : json_Unmarshal (RefJSON.print example_two_bad)
               = inr example_two_bad) by (vm_compute; reflexivity).
  apply (proj1 (decoding_order
                  (RefJSON.print example_two_bad) "password123"
                  example_two_bad example_env start HJ)).
  vm_compute; reflexivity.
Defined.

Lemma DecryptContainer_other_password_witness :
  fst (DecryptContainer (RefJSON.print example_record) "wrongpass"
                        example_env2 start)
  = Val ("", Some (errors_New "HMAC mismatch"))
  \/ exists s,
       fst (DecryptContainer (RefJSON.print example_record) "wrongpass"
                             example_env2 start) = Val (s, None)
       /\ String.length s = String.length "hello world"
       /\ SHA256.Sum256 (bytes_of_string s)
          = SHA256.Sum256 (bytes_of_string "hello world").
Proof.
  exact (DecryptContainer_other_password
           "hello world" "password123" "wrongpass"
           (RefJSON.print example_record) example_env example_env2
           start example_world start example_seal).
Defined.

Lemma empty_plaintext_opens_witness :
  exists r w',
    CreateContainer "" "password123" example_env start = (Val (r, None), w')
    /\ forall pw e' w0, fst (DecryptContainer r pw e' w0) = Val ("", None).
Proof.
  apply (empty_plaintext_opens
           "password123" example_env start
           (fun i => ascii_of_nat (1 + 16 * 0 + i))
           (fun i => ascii_of_nat (1 + 16 * 1 + i)));
    [reflexivity | reflexivity | simpl; lia].
Defined.

Lemma known_plaintext_forgery_witness :
  fst (DecryptContainer (RefJSON.print example_record) "password123"
                        example_env start)
  = Val ("hello world", None)
  /\ fst (DecryptContainer
            (RefJSON.print
               (forge example_record example_payload
                      (bytes_of_string "hello world")
                      (bytes_of_string "HELLO WORLD")))
            "password123" example_env2 start)
     = Val ("HELLO WORLD", None).
Proof.
  assert (H : fst (DecryptContainer (RefJSON.print example_record)
                                    "password123" example_env start)
              = Val ("hello world", None))
    by (rewrite example_opens; reflexivity).
  split; [exact H|].
  destruct example_decoded as (_ & He & _).
  apply (known_plaintext_forgery
           (RefJSON.print example_record) _ "password123"
           "hello world" "HELLO WORLD" example_record example_payload
           example_env example_env2 start start example_parsed He H eq_refl).
  vm_compute; reflexivity.
Defined.

Lemma digest_compared_as_text_witness :
  Hex.DecodeString (HMAC (ContainedData example_upper_digest))
  = Hex.DecodeString (HMAC (ContainedData example_record))
  /\ fst (DecryptContainer (RefJSON.print example_upper_digest)
                           "password123" example_env start)
     = Val ("", Some (errors_New "HMAC mismatch")).
Proof.
  split; [vm_compute; reflexivity|].
  assert (H : fst (DecryptContainer (RefJSON.print example_record)
                                    "password123" example_env start)
              = Val ("hello world", None))
    by (rewrite example_opens; reflexivity).
  apply (digest_compared_as_text
           (RefJSON.print example_record)
           (RefJSON.print example_upper_digest) "password123" "hello world"
           "B94D27B9934D3E08A52E52D7DA7DABFAC484EFE37A5380EE9088F7ACE2EFCDE9"
           example_record example_env example_env start start
           example_parsed H).
  - vm_compute; reflexivity.
  - vm_compute; discriminate.
Defined.

Lemma DecryptContainer_by_value_witness :
  Salt (DeriveInfo example_upper_salt) <> Salt (DeriveInfo example_record)
  /\ fst (DecryptContainer (RefJSON.print example_upper_salt) "password123"
                           example_env2 start)
     = fst (DecryptContainer (RefJSON.print example_record) "password123"
                             example_env start).
Proof.
  split; [vm_compute; discriminate|].
  apply (DecryptContainer_by_value
           (RefJSON.print example_upper_salt) (RefJSON.print example_record)
           "password123" example_upper_salt example_record);
    vm_compute; reflexivity.
Defined.

Lemma DecryptContainer_low_iterations_witness :
  Iters (DeriveInfo example_negative_iters) = -5
  /\ fst (DecryptContainer (RefJSON.print example_negative_iters)
                           "password123" example_env start)
     = fst (DecryptContainer
              (RefJSON.print (with_iters example_negative_iters 1))
              "password123" example_env start).
Proof.
  split; [reflexivity|].
  apply (DecryptContainer_low_iterations
           (RefJSON.print example_negative_iters)
           (RefJSON.print (with_iters example_negative_iters 1))
           "password123" example_negative_iters example_env start).
  - vm_compute; reflexivity.
  - vm_compute; discriminate.
  - vm_compute; reflexivity.
Defined.

Lemma long_password_alias_witness :
  fst (DecryptContainer
         (RefJSON.print example_record)
         (string_of_bytes
            (SHA256.Sum256
               (bytes_of_string
                  (string_of_bytes (repeat "a"%char 65)))))
         example_env start)
  = fst (DecryptContainer (RefJSON.print example_record)
                          (string_of_bytes (repeat "a"%char 65))
                          example_env start).
Proof.
  apply (long_password_alias
           (RefJSON.print example_record)
           (string_of_bytes (repeat "a"%char 65)) example_env start).
  vm_compute; lia.
Defined.
